(** * mocap_node.cpp: the OptiTrack/ROS bridge lifecycle

    A shallow embedding of [mocap_optitrack::OptiTrackRosBridge]
    ([src/mocap_node.cpp]): [reconfigureCallback], [initialize], [run] and
    [updateDataModelFromServer].

    The node is a single-threaded program that talks to its surroundings
    through a handful of calls: [ros::ok()], [ros::spinOnce()], the socket's
    [send] and [recv], [usleep]/[sleep], the codec's [dispatch] and the
    publisher's [publish].  Each such call is recorded in a log, newest event
    first, and what the surroundings answer is read from an [Environment] of
    oracles indexed by how often the call was made so far.  The callback of
    the dynamic_reconfigure server runs where roscpp runs callbacks: inside
    [ros::spinOnce()], on the thread that called it, so that a
    [reconfigureCallback], and the [initialize] it ends in, may nest in the
    handshake loop of an [initialize] that is under way.  Both loops of the
    node are unbounded, so the functions take a fuel argument; running out of
    fuel stops the run where it stands and hands back the state reached, which
    lets safety properties speak about every finite prefix of an execution. *)

From Stdlib Require Import ZArith List Bool Lia String.
From Stdlib.Strings Require Import Byte.
Import ListNotations.
Local Open Scope Z_scope.

Set Implicit Arguments.
Set Maximal Implicit Insertion.

(** ** Data *)

Definition MessageBuffer := list byte.
Definition Version := list Z.

(** [ServerDescription] (mocap_config.h, not among the sources): the five
    fields the node reads and writes.  [version] is the protocol version
    hint, a vector that is empty when there is none. *)
Record ServerDescription := mkServerDescription {
  enableOptitrack : bool;
  commandPort : Z;
  dataPort : Z;
  multicastIpAddress : string;
  version : Version
}.

(** [MocapOptitrackConfig] (generated, not among the sources): the four
    fields of the dynamic_reconfigure message that the callback reads. *)
Record MocapOptitrackConfig := mkConfig {
  enable_optitrack : bool;
  command_port : Z;
  data_port : Z;
  multicast_address : string
}.

(** What one call of [UdpMulticastSocket::recv] hands back: the byte count
    it returns and the receive buffer [getBuffer] points to. *)
Record Datagram := mkDatagram {
  numBytesReceived : Z;
  buffer : list byte
}.

(** Modelled from the spec: [UdpMulticastSocket] (socket.h) is not among
    the sources.  Following the transport contract, constructing one binds
    it to a data port and a multicast group, and destroying it closes it;
    [socketId] tells the sockets of a run apart. *)
Record UdpMulticastSocket := mkSocket {
  socketId : nat;
  boundPort : Z;
  boundAddress : string
}.

(** [RigidBodyPublishDispatcher] (rigid_body_publisher.h, not among the
    sources), as far as the node is concerned: which one it is, and the
    NatNet version it was constructed with, if the data model had one. *)
Record RigidBodyPublishDispatcher := mkDispatcher {
  dispatcherId : nat;
  dispatcherVersion : option Version
}.

Section Model.

Variable RigidBody : Type.

(** Modelled from the spec: [DataModel] (data_model.h) is not among the
    sources.  It holds the server's version information, absent until a
    server-info message was decoded or a version hint applied, and the rigid
    bodies of the most recent frame ([dataFrame.rigidBodies]); [clear]
    empties the rigid bodies and never touches the server information. *)
Record ServerInfo := mkServerInfo {
  natNetVersion : Version;
  serverVersion : Version
}.

Record DataModel := mkDataModel {
  serverInfo : option ServerInfo;
  rigidBodies : list RigidBody
}.

Definition hasServerInfo (dm : DataModel) : bool :=
  match serverInfo dm with Some _ => true | None => false end.

Definition setVersions (nver sver : Version) (dm : DataModel) : DataModel :=
  mkDataModel (Some (mkServerInfo nver sver)) (rigidBodies dm).

Definition getNatNetVersion (dm : DataModel) : option Version :=
  option_map natNetVersion (serverInfo dm).

Definition clear (dm : DataModel) : DataModel :=
  mkDataModel (serverInfo dm) [].

(** The calls the node makes, as they appear in the log. *)
Inductive Event :=
| EvOk (answer : bool)
| EvBind (sock : nat) (port : Z) (addr : string)
| EvClose (sock : nat)
| EvSetVersions (v : Version)
| EvSend (sock : nat) (msg : MessageBuffer) (port : Z)
| EvRecv (sock : nat) (numBytes : Z)
| EvDecode (msg : MessageBuffer)
| EvUsleep (usec : Z)
| EvSleep (sec : Z)
| EvDurationSleep (sec : Z)
| EvSpinOnce
| EvCallback (cfg : MocapOptitrackConfig)
| EvCreateDispatcher (disp : nat) (v : option Version)
| EvDestroyDispatcher (disp : nat)
| EvTimeNow (t : Z)
| EvPublish (disp : nat) (t : Z) (bodies : list RigidBody)
| EvClear
| EvInfo (msg : string).

Definition isOk (e : Event) : bool :=
  match e with EvOk _ => true | _ => false end.
Definition isBind (e : Event) : bool :=
  match e with EvBind _ _ _ => true | _ => false end.
Definition isRecv (e : Event) : bool :=
  match e with EvRecv _ _ => true | _ => false end.
Definition isSend (e : Event) : bool :=
  match e with EvSend _ _ _ => true | _ => false end.
Definition isDecode (e : Event) : bool :=
  match e with EvDecode _ => true | _ => false end.
Definition isSpinOnce (e : Event) : bool :=
  match e with EvSpinOnce => true | _ => false end.
Definition isCreateDispatcher (e : Event) : bool :=
  match e with EvCreateDispatcher _ _ => true | _ => false end.
Definition isTimeNow (e : Event) : bool :=
  match e with EvTimeNow _ => true | _ => false end.
Definition isPublish (e : Event) : bool :=
  match e with EvPublish _ _ _ => true | _ => false end.

Definition count (p : Event -> bool) (l : list Event) : nat :=
  List.length (filter p l).

(** The sockets open after a log: every [EvBind] opens one, every
    [EvClose] closes one. *)
Fixpoint openSockets (l : list Event) : list nat :=
  match l with
  | [] => []
  | EvBind k _ _ :: l' => k :: openSockets l'
  | EvClose k :: l' => filter (fun j => negb (Nat.eqb j k)) (openSockets l')
  | _ :: l' => openSockets l'
  end.

(** The surroundings of the node.  [PublisherConfigurations] only travels
    from the constructor to the publish dispatcher and is left out. *)
Record Environment := mkEnvironment {
  ros_ok : nat -> bool;
  socket_recv : nat -> Datagram;
  pendingCallbacks : nat -> list MocapOptitrackConfig;
  ros_time_now : nat -> Z;
  MessageDispatcher_dispatch : MessageBuffer -> DataModel -> DataModel;
  connectionRequest : MessageBuffer
}.

(** The members of [OptiTrackRosBridge], and the log. *)
Record Bridge := mkBridge {
  serverDescription : ServerDescription;
  dataModel : DataModel;
  multicastClientSocketPtr : option UdpMulticastSocket;
  publishDispatcherPtr : option RigidBodyPublishDispatcher;
  initialized : bool;
  log : list Event
}.

Definition set_serverDescription (d : ServerDescription) (s : Bridge) : Bridge :=
  mkBridge d (dataModel s) (multicastClientSocketPtr s)
           (publishDispatcherPtr s) (initialized s) (log s).
Definition set_dataModel (dm : DataModel) (s : Bridge) : Bridge :=
  mkBridge (serverDescription s) dm (multicastClientSocketPtr s)
           (publishDispatcherPtr s) (initialized s) (log s).
Definition set_socket (p : option UdpMulticastSocket) (s : Bridge) : Bridge :=
  mkBridge (serverDescription s) (dataModel s) p
           (publishDispatcherPtr s) (initialized s) (log s).
Definition set_dispatcher (p : option RigidBodyPublishDispatcher) (s : Bridge) : Bridge :=
  mkBridge (serverDescription s) (dataModel s) (multicastClientSocketPtr s)
           p (initialized s) (log s).
Definition set_initialized (b : bool) (s : Bridge) : Bridge :=
  mkBridge (serverDescription s) (dataModel s) (multicastClientSocketPtr s)
           (publishDispatcherPtr s) b (log s).
Definition logged (e : Event) (s : Bridge) : Bridge :=
  mkBridge (serverDescription s) (dataModel s) (multicastClientSocketPtr s)
           (publishDispatcherPtr s) (initialized s) (e :: log s).

(** ** The monad of the node

    A computation takes the state and either finishes with a value, stops
    for lack of fuel, or dereferences an empty [unique_ptr]. *)
Inductive Outcome (A : Type) :=
| Done (a : A) (s : Bridge)
| OutOfFuel (s : Bridge)
| NullPointer (s : Bridge).
Arguments Done {A} a s.
Arguments OutOfFuel {A} s.
Arguments NullPointer {A} s.

Definition stateOf {A} (o : Outcome A) : Bridge :=
  match o with Done _ s => s | OutOfFuel s => s | NullPointer s => s end.

Definition isDone {A} (o : Outcome A) : bool :=
  match o with Done _ _ => true | _ => false end.

Definition M (A : Type) := Bridge -> Outcome A.

Definition ret {A} (a : A) : M A := fun s => Done a s.

Definition bind {A B} (m : M A) (f : A -> M B) : M B :=
  fun s => match m s with
           | Done a s' => f a s'
           | OutOfFuel s' => OutOfFuel s'
           | NullPointer s' => NullPointer s'
           end.

Notation "x <- m ;; k" := (bind m (fun x => k))
  (at level 61, m at next level, right associativity).
Notation "m ;; k" := (bind m (fun _ => k))
  (at level 61, right associativity).

Definition modify (f : Bridge -> Bridge) : M unit := fun s => Done tt (f s).
Definition emit (e : Event) : M unit := modify (logged e).
Definition outOfFuel {A} : M A := fun s => OutOfFuel s.

Fixpoint forEach {A} (l : list A) (f : A -> M unit) : M unit :=
  match l with
  | [] => ret tt
  | a :: l' => f a ;; forEach l' f
  end.

Variable env : Environment.

(** ** Calls into the surroundings *)

(** [ros::ok()] *)
Definition rosOk : M bool :=
  fun s => let b := ros_ok env (count isOk (log s)) in
           Done b (logged (EvOk b) s).

(** [multicastClientSocketPtr.reset(new UdpMulticastSocket(port, addr))]:
    the new socket is constructed, and so bound, while the argument is
    evaluated; [reset] then stores it and destroys the socket held before. *)
Definition resetSocket (port : Z) (addr : string) : M unit :=
  fun s =>
    let fresh := mkSocket (count isBind (log s)) port addr in
    let s1 := logged (EvBind (socketId fresh) port addr) s in
    let s2 := match multicastClientSocketPtr s with
              | Some old => logged (EvClose (socketId old)) s1
              | None => s1
              end in
    Done tt (set_socket (Some fresh) s2).

(** [publishDispatcherPtr.reset(new RigidBodyPublishDispatcher(nh,
    dataModel.getNatNetVersion(), publisherConfigurations))] *)
Definition resetDispatcher : M unit :=
  fun s =>
    let fresh := mkDispatcher (count isCreateDispatcher (log s))
                              (getNatNetVersion (dataModel s)) in
    let s1 := logged (EvCreateDispatcher (dispatcherId fresh)
                                         (dispatcherVersion fresh)) s in
    let s2 := match publishDispatcherPtr s with
              | Some old => logged (EvDestroyDispatcher (dispatcherId old)) s1
              | None => s1
              end in
    Done tt (set_dispatcher (Some fresh) s2).

(** [multicastClientSocketPtr->send(&buf[0], buf.size(), port)] *)
Definition socketSend (msg : MessageBuffer) (port : Z) : M unit :=
  fun s => match multicastClientSocketPtr s with
           | Some sock => Done tt (logged (EvSend (socketId sock) msg port) s)
           | None => NullPointer s
           end.

(** [multicastClientSocketPtr->recv()] *)
Definition socketRecv : M Datagram :=
  fun s => match multicastClientSocketPtr s with
           | Some sock =>
               let d := socket_recv env (count isRecv (log s)) in
               Done d (logged (EvRecv (socketId sock) (numBytesReceived d)) s)
           | None => NullPointer s
           end.

(** [natnet::MessageDispatcher::dispatch(msgBuffer, &dataModel)] *)
Definition dispatch (msg : MessageBuffer) : M unit :=
  emit (EvDecode msg) ;;
  modify (fun s => set_dataModel
                     (MessageDispatcher_dispatch env msg (dataModel s)) s).

(** [ros::Time::now()] *)
Definition timeNow : M Z :=
  fun s => let t := ros_time_now env (count isTimeNow (log s)) in
           Done t (logged (EvTimeNow t) s).

(** [publishDispatcherPtr->publish(time, dataModel.dataFrame.rigidBodies)] *)
Definition publish (t : Z) : M unit :=
  fun s => match publishDispatcherPtr s with
           | Some d => Done tt (logged (EvPublish (dispatcherId d) t
                                          (rigidBodies (dataModel s))) s)
           | None => NullPointer s
           end.

(** ** The member functions *)

(** [bool updateDataModelFromServer()] *)
Definition updateDataModelFromServer : M bool :=
  d <- socketRecv ;;
  if 0 <? numBytesReceived d then
    dispatch (firstn (Z.to_nat (numBytesReceived d)) (buffer d)) ;;
    ret true
  else
    ret false.

(** The assignments of [reconfigureCallback]. *)
Definition applyConfig (config : MocapOptitrackConfig) (d : ServerDescription)
  : ServerDescription :=
  mkServerDescription (enable_optitrack config) (command_port config)
                      (data_port config) (multicast_address config)
                      (version d).

(** [reconfigureCallback], with the [initialize] it ends in passed in. *)
Definition reconfigureCallbackWith (init : M unit) (config : MocapOptitrackConfig)
  : M unit :=
  emit (EvCallback config) ;;
  modify (fun s => set_serverDescription
                     (applyConfig config (serverDescription s)) s) ;;
  init.

(** [ros::spinOnce()]: the callbacks that are pending run one after the
    other, on the caller's thread. *)
Definition spinOnce (callback : MocapOptitrackConfig -> M unit) : M unit :=
  fun s => (emit EvSpinOnce ;;
            forEach (pendingCallbacks env (count isSpinOnce (log s))) callback) s.

(** Lines 89 to 97: one connection request, one poll, one pause. *)
Definition requestAndPoll : M unit :=
  port <- (fun s => Done (commandPort (serverDescription s)) s) ;;
  socketSend (connectionRequest env) port ;;
  got <- updateDataModelFromServer ;;
  if got : bool then emit (EvUsleep 10) else emit (EvSleep 1).

(** The [while] of [initialize]. *)
Fixpoint handshakeLoop (spin : M unit) (fuel : nat) : M unit :=
  match fuel with
  | O => outOfFuel
  | S fuel' =>
      ok <- rosOk ;;
      known <- (fun s => Done (hasServerInfo (dataModel s)) s) ;;
      if ok && negb known then
        requestAndPoll ;; spin ;; handshakeLoop spin fuel'
      else
        ret tt
  end.

(** [void initialize()] *)
Fixpoint initialize (fuel : nat) : M unit :=
  match fuel with
  | O => outOfFuel
  | S fuel' =>
      fun s =>
        let descr := serverDescription s in
        if enableOptitrack descr then
          (resetSocket (dataPort descr) (multicastIpAddress descr) ;;
           match version descr with
           | [] => ret tt
           | _ :: _ =>
               emit (EvSetVersions (version descr)) ;;
               modify (fun s' => set_dataModel
                                   (setVersions (version descr) (version descr)
                                                (dataModel s')) s')
           end ;;
           handshakeLoop
             (spinOnce (reconfigureCallbackWith (initialize fuel'))) fuel' ;;
           resetDispatcher ;;
           emit (EvInfo "Initialization complete") ;;
           modify (set_initialized true)) s
        else
          (emit (EvInfo "Initialization incomplete") ;;
           modify (set_initialized false)) s
  end.

(** [void reconfigureCallback(MocapOptitrackConfig& config, uint32_t)] *)
Definition reconfigureCallback (fuel : nat) (config : MocapOptitrackConfig)
  : M unit :=
  reconfigureCallbackWith (initialize fuel) config.

(** Lines 120 to 138: the body of the [while] of [run] up to [spinOnce]. *)
Definition pollAndPublish : M unit :=
  fun s =>
    if initialized s then
      (got <- updateDataModelFromServer ;;
       (if got : bool then
          t <- timeNow ;;
          publish t ;;
          emit EvClear ;;
          modify (fun s' => set_dataModel (clear (dataModel s')) s')
        else ret tt) ;;
       emit (EvUsleep 100)) s
    else
      emit (EvDurationSleep 1) s.

(** [void run()] *)
Fixpoint run (fuel : nat) : M unit :=
  match fuel with
  | O => outOfFuel
  | S fuel' =>
      ok <- rosOk ;;
      if ok : bool then
        pollAndPublish ;;
        spinOnce (reconfigureCallback fuel') ;;
        run fuel'
      else
        ret tt
  end.

(** [main], from the constructed node on: [node.initialize(); node.run();] *)
Definition node_main (fuel : nat) : M unit :=
  initialize fuel ;; run fuel.

End Model.

Arguments EvOk {RigidBody}.
Arguments EvBind {RigidBody}.
Arguments EvClose {RigidBody}.
Arguments EvSetVersions {RigidBody}.
Arguments EvSend {RigidBody}.
Arguments EvRecv {RigidBody}.
Arguments EvDecode {RigidBody}.
Arguments EvUsleep {RigidBody}.
Arguments EvSleep {RigidBody}.
Arguments EvDurationSleep {RigidBody}.
Arguments EvSpinOnce {RigidBody}.
Arguments EvCallback {RigidBody}.
Arguments EvCreateDispatcher {RigidBody}.
Arguments EvDestroyDispatcher {RigidBody}.
Arguments EvTimeNow {RigidBody}.
Arguments EvClear {RigidBody}.
Arguments EvInfo {RigidBody}.
Arguments Done {RigidBody A} a s.
Arguments OutOfFuel {RigidBody A} s.
Arguments NullPointer {RigidBody A} s.

Unset Implicit Arguments.
Unset Maximal Implicit Insertion.

Declare Scope node_scope.
Notation "x <- m ;; k" := (bind m (fun x => k))
  (at level 61, m at next level, right associativity) : node_scope.
Notation "m ;; k" := (bind m (fun _ => k))
  (at level 61, right associativity) : node_scope.

Local Open Scope node_scope.

(** ** Vocabulary of the properties *)

Section Vocabulary.

Context {RigidBody : Type}.

Local Notation "'Event'" := (Event RigidBody).
Local Notation "'Bridge'" := (Bridge RigidBody).

Definition publishCount (l : list Event) : nat := count isPublish l.

(** The events [initialize] and what it calls can log: every event but
    those of the publishing branch of [run]. *)
Definition handshakeEvent (e : Event) : bool :=
  match e with
  | EvTimeNow _ | EvPublish _ _ _ | EvClear | EvDurationSleep _ => false
  | _ => true
  end.

(** The pause an event stands for, in microseconds. *)
Definition pauseMicroseconds (e : Event) : option Z :=
  match e with
  | EvUsleep usec => Some usec
  | EvSleep sec => Some (sec * 1000000)
  | EvDurationSleep sec => Some (sec * 1000000)
  | _ => None
  end.

Definition isOkTrue (e : Event) : bool :=
  match e with EvOk true => true | _ => false end.

Definition isOkFalse (e : Event) : bool :=
  match e with EvOk false => true | _ => false end.

Definition headIs (p : Event -> bool) (l : list Event) : bool :=
  match l with e :: _ => p e | [] => false end.

(** The answer [ros::ok()] gave when it was last asked. *)
Definition lastOk (l : list Event) : option Event := find isOk l.

(** An iteration of the handshake loop starts with the connection request
    ([EvSend]); an iteration of the loop of [run] starts with the receive
    ([EvRecv], which in the handshake loop follows the request) or with the
    one second sleep of a node that is not initialized.  [checkedAtTop l]
    says that in [l] each of these starts comes right after a [ros::ok()]
    that answered true. *)
Definition stepChecked (e : Event) (before : list Event) : bool :=
  match e with
  | EvSend _ _ _ => headIs isOkTrue before
  | EvDurationSleep _ => headIs isOkTrue before
  | EvRecv _ _ => headIs isOkTrue before || headIs isSend before
  | _ => true
  end.

Fixpoint checkedAtTop (l : list Event) : bool :=
  match l with
  | [] => true
  | e :: l' => stepChecked e l' && checkedAtTop l'
  end.

(** A callback that delivers [enable_optitrack = true]. *)
Definition isEnabling (e : Event) : bool :=
  match e with EvCallback cfg => enable_optitrack cfg | _ => false end.

(** Every publish in [l] has an enabling callback before it (further down
    the list: the log is newest first). *)
Fixpoint quietUntilEnabled (l : list Event) : bool :=
  match l with
  | [] => true
  | e :: l' =>
      (if isPublish e then existsb isEnabling l' else true)
      && quietUntilEnabled l'
  end.

(** [m] relates every state it is started in to the state it ends or stops
    in by [R]. *)
Definition keeps {A} (R : Bridge -> Bridge -> Prop) (m : M RigidBody A) : Prop :=
  forall s, R s (stateOf (m s)).

(** Started where [P] holds, [m] finishes where [Q] holds, and where it
    stops short [I] holds. *)
Definition triple {A} (P : Bridge -> Prop) (m : M RigidBody A)
           (Q : A -> Bridge -> Prop) (I : Bridge -> Prop) : Prop :=
  forall s, P s ->
    match m s with
    | Done a s' => Q a s'
    | OutOfFuel s' => I s'
    | NullPointer s' => I s'
    end.

(** The log of [s'] is the log of [s] with events satisfying [p] put in
    front. *)
Definition extends (p : Event -> bool) (s s' : Bridge) : Prop :=
  exists new, log s' = new ++ log s /\ forallb p new = true.

(** What [unique_ptr::reset] logs for the object it held before. *)
Definition closing (p : option UdpMulticastSocket) : list Event :=
  match p with Some old => [EvClose (socketId old)] | None => [] end.

Definition destroying (p : option RigidBodyPublishDispatcher) : list Event :=
  match p with Some old => [EvDestroyDispatcher (dispatcherId old)] | None => [] end.

(** Several events logged at once, the newest first. *)
Definition loggedAll (l : list Event) (s : Bridge) : Bridge :=
  mkBridge (serverDescription s) (dataModel s) (multicastClientSocketPtr s)
           (publishDispatcherPtr s) (initialized s) (l ++ log s).

(** The buffer [updateDataModelFromServer] cuts out of a datagram. *)
Definition messageOf (d : Datagram) : MessageBuffer :=
  firstn (Z.to_nat (numBytesReceived d)) (buffer d).

(** The version hint of [s'] is that of [s]. *)
Definition sameVersion (s s' : Bridge) : Prop :=
  version (serverDescription s') = version (serverDescription s).

(** No hint is configured and no server information is known. *)
Definition unknownServer (s : Bridge) : Prop :=
  version (serverDescription s) = [] /\ hasServerInfo (dataModel s) = false.

Definition staysUnknown (s s' : Bridge) : Prop :=
  unknownServer s -> unknownServer s'.

Definition staysChecked (s s' : Bridge) : Prop :=
  checkedAtTop (log s) = true -> checkedAtTop (log s') = true.

(** Since the log was [base] nothing was published that an enabling
    callback did not precede, and a node that is initialized or enabled has
    seen such a callback. *)
Definition quietSince (base : list Event) (s : Bridge) : Prop :=
  exists new,
    log s = new ++ base /\
    quietUntilEnabled new = true /\
    (initialized s = true \/ enableOptitrack (serverDescription s) = true ->
     existsb isEnabling new = true).

Definition staysQuiet (base : list Event) (s s' : Bridge) : Prop :=
  (exists ext, log s' = ext ++ log s) /\
  (quietSince base s -> quietSince base s').

(** The data model after the hint, if there is one, was applied, and the
    event that goes with it. *)
Definition seedModel (v : Version) (dm : DataModel RigidBody) : DataModel RigidBody :=
  match v with [] => dm | _ :: _ => setVersions v v dm end.

Definition seedEvents (v : Version) : list Event :=
  match v with [] => [] | _ :: _ => [EvSetVersions v] end.

(** A node before [initialize] ran: the description it was constructed
    with, an empty data model, no socket, no dispatcher.  The constructor
    leaves [initialized] unset; [initialize] writes it before [run] reads
    it, and it is taken as false here. *)
Definition constructed (descr : ServerDescription) : Bridge :=
  mkBridge descr (mkDataModel None []) None None false [].

(** What a computation may end in: [Q] where it finishes, [E] where the
    fuel ends, and never in an empty [unique_ptr]. *)
Definition outcomeIs {A} (Q E : Bridge -> Prop) (o : Outcome RigidBody A) : Prop :=
  match o with
  | Done _ s => Q s
  | OutOfFuel s => E s
  | NullPointer _ => False
  end.

Definition holdsSocket (s : Bridge) : Prop :=
  multicastClientSocketPtr s <> None.

(** An initialized node holds a socket and a dispatcher. *)
Definition nullSafe (s : Bridge) : Prop :=
  initialized s = true ->
  multicastClientSocketPtr s <> None /\ publishDispatcherPtr s <> None.

Definition keepsSocket (s s' : Bridge) : Prop :=
  holdsSocket s -> holdsSocket s'.

(** A callback that, entered where [Ent] holds, returns where [Inv] holds
    and stops where [Ent] holds, and does not lose the socket. *)
Definition callbackKeeps (Ent Inv : Bridge -> Prop)
           (cb : MocapOptitrackConfig -> M RigidBody unit) : Prop :=
  forall cfg s, Ent s ->
    outcomeIs (fun s' => Inv s' /\ keepsSocket s s')
              (fun s' => Ent s' /\ keepsSocket s s') (cb cfg s).

(** The state [reconfigureCallback] hands to [initialize]. *)
Definition callbackEntry (cfg : MocapOptitrackConfig) (s : Bridge) : Bridge :=
  set_serverDescription (applyConfig cfg (serverDescription s))
                        (logged (EvCallback cfg) s).

(** The state in which [initialize] reaches its loop: lines 76 to 83. *)
Definition enterHandshake (s : Bridge) : Bridge :=
  let descr := serverDescription s in
  mkBridge descr
    (seedModel (version descr) (dataModel s))
    (Some (mkSocket (count isBind (log s)) (dataPort descr)
                    (multicastIpAddress descr)))
    (publishDispatcherPtr s) (initialized s)
    (seedEvents (version descr)
     ++ closing (multicastClientSocketPtr s)
     ++ EvBind (count isBind (log s)) (dataPort descr) (multicastIpAddress descr)
     :: log s).

(** The state in which [initialize] returns after its loop: lines 102 to
    107. *)
Definition leaveHandshake (s : Bridge) : Bridge :=
  mkBridge (serverDescription s) (dataModel s) (multicastClientSocketPtr s)
    (Some (mkDispatcher (count isCreateDispatcher (log s))
                        (getNatNetVersion (dataModel s))))
    true
    (EvInfo "Initialization complete"
     :: destroying (publishDispatcherPtr s)
     ++ EvCreateDispatcher (count isCreateDispatcher (log s))
                           (getNatNetVersion (dataModel s))
     :: log s).

(** The dispatchers alive after a log. *)
Fixpoint liveDispatchers (l : list Event) : list nat :=
  match l with
  | [] => []
  | EvCreateDispatcher k _ :: l' => k :: liveDispatchers l'
  | EvDestroyDispatcher k :: l' =>
      filter (fun j => negb (Nat.eqb j k)) (liveDispatchers l')
  | _ :: l' => liveDispatchers l'
  end.

Definition heldSockets (p : option UdpMulticastSocket) : list nat :=
  match p with Some sock => [socketId sock] | None => [] end.

Definition heldDispatchers (p : option RigidBodyPublishDispatcher) : list nat :=
  match p with Some d => [dispatcherId d] | None => [] end.

Definition isClear (e : Event) : bool :=
  match e with EvClear => true | _ => false end.

Definition isClose (e : Event) : bool :=
  match e with EvClose _ => true | _ => false end.

(** What has to come right before an event: a publish carries the time
    read just before it through a dispatcher that is alive; the time is
    read right after a decode; the codec gets the bytes of the receive just
    before it, which yielded some, and no more of them than it yielded; the
    data model is cleared right after a publish; a socket is closed right
    after another one was bound, and it was open; requests are sent and
    datagrams received on an open socket; a dispatcher is destroyed right
    after another one was created. *)
Definition comesAfter (e : Event) (before : list Event) : bool :=
  match e with
  | EvPublish d t _ =>
      match before with
      | EvTimeNow t' :: _ => Z.eqb t t'
      | _ => false
      end && existsb (Nat.eqb d) (liveDispatchers before)
  | EvTimeNow _ => headIs isDecode before
  | EvDecode msg =>
      match before with
      | EvRecv _ n :: _ => (0 <? n) && (Z.of_nat (List.length msg) <=? n)
      | _ => false
      end
  | EvClear => headIs isPublish before
  | EvClose k =>
      headIs isBind before && existsb (Nat.eqb k) (openSockets (tl before))
  | EvSend k _ _ => existsb (Nat.eqb k) (openSockets before)
  | EvRecv k _ => existsb (Nat.eqb k) (openSockets before)
  | EvDestroyDispatcher k =>
      headIs isCreateDispatcher before
      && existsb (Nat.eqb k) (liveDispatchers (tl before))
  | _ => true
  end.

(** What has to come right after an event: a receive after a request, a
    publish after the time was read, a clear after a publish. *)
Definition comesBefore (e : Event) (before : list Event) : bool :=
  match before with
  | EvSend _ _ _ :: _ => isRecv e
  | EvTimeNow _ :: _ => isPublish e
  | EvPublish _ _ _ :: _ => isClear e
  | _ => true
  end.

Fixpoint inOrder (l : list Event) : bool :=
  match l with
  | [] => true
  | e :: l' => comesAfter e l' && comesBefore e l' && inOrder l'
  end.

(** The events that may come anywhere and open or close nothing. *)
Definition neutral (e : Event) : bool :=
  match e with
  | EvOk _ | EvSetVersions _ | EvUsleep _ | EvSleep _ | EvDurationSleep _
  | EvSpinOnce | EvCallback _ | EvInfo _ => true
  | _ => false
  end.

(** A receive that yielded bytes. *)
Definition isRecvBytes (e : Event) : bool :=
  match e with EvRecv _ n => 0 <? n | _ => false end.

(** A log that does not end in the middle of a request or of a publish. *)
Definition atRest (l : list Event) : bool :=
  match l with
  | EvSend _ _ _ :: _ | EvTimeNow _ :: _ | EvPublish _ _ _ :: _ => false
  | _ => true
  end.

(** The sockets open and the dispatchers alive are the ones the node holds,
    and the next ones will be new. *)
Definition accounted (s : Bridge) : Prop :=
  openSockets (log s) = heldSockets (multicastClientSocketPtr s) /\
  liveDispatchers (log s) = heldDispatchers (publishDispatcherPtr s) /\
  (forall sock, multicastClientSocketPtr s = Some sock ->
                (socketId sock < count isBind (log s))%nat) /\
  (forall d, publishDispatcherPtr s = Some d ->
             (dispatcherId d < count isCreateDispatcher (log s))%nat).

Definition orderly (s : Bridge) : Prop :=
  inOrder (log s) = true /\ atRest (log s) = true /\ accounted s.

(** The server information is known and [sent] connection requests were
    sent. *)
Definition settled (sent : nat) (s : Bridge) : Prop :=
  hasServerInfo (dataModel s) = true /\ count isSend (log s) = sent.

(** The computation did not stop for lack of fuel. *)
Definition fuelSufficed {A} (o : Outcome RigidBody A) : Prop :=
  match o with OutOfFuel _ => False | _ => True end.

(** [ros::ok()] was asked at least as often in [s'] as in [s]. *)
Definition asksOn (s s' : Bridge) : Prop :=
  (count isOk (log s) <= count isOk (log s'))%nat.

(** The [ros::ok()] calls that can still answer true when it answers false
    from the [down]-th call on. *)
Definition oksLeft (down : nat) (s : Bridge) : nat :=
  (down - count isOk (log s))%nat.

End Vocabulary.

(** ** A fake server for concrete runs *)

Module Demo.

(** A rigid body, reduced to its identifier. *)
Definition RigidBody := Z.

(** Modelled from the spec: the codec ([natnet::MessageDispatcher::dispatch],
    natnet_messages.h) is not among the sources.  It turns a buffer into a
    server-info event, a data-frame event or nothing recognised, and applies
    it to the data model; a data frame is applied only once server
    information is known.  The wire format here is a stand-in: the first
    byte names the message, one byte per version component or rigid body
    follows. *)
Inductive ProtocolEvent :=
| ServerInfoMessage (v : Version)
| DataFrameMessage (bodies : list RigidBody)
| Unrecognized.

Definition byteValue (b : byte) : Z := Z.of_N (Byte.to_N b).

Definition deserialize (msg : MessageBuffer) : ProtocolEvent :=
  match msg with
  | x01 :: rest => ServerInfoMessage (map byteValue rest)
  | x07 :: rest => DataFrameMessage (map byteValue rest)
  | _ => Unrecognized
  end.

Definition decodeInto (msg : MessageBuffer) (dm : DataModel RigidBody)
  : DataModel RigidBody :=
  match deserialize msg with
  | ServerInfoMessage v => setVersions v v dm
  | DataFrameMessage bodies =>
      if hasServerInfo dm then mkDataModel (serverInfo dm) bodies else dm
  | Unrecognized => dm
  end.

Definition datagram (msg : list byte) : Datagram :=
  mkDatagram (Z.of_nat (List.length msg)) msg.

Definition nothing : Datagram := mkDatagram (-1) [].

Definition serverInfoBytes : list byte := [x01; x03; x00; x00; x00].
Definition twoBodies : list byte := [x07; x01; x02].
Definition emptyFrame : list byte := [x07].
Definition garbage : list byte := [x64; x2a].

(** Surroundings that keep the node running for [oks] calls of
    [ros::ok()], deliver the given datagrams to the successive [recv] calls
    and the given callbacks to the successive [spinOnce] calls. *)
Definition surroundings (oks : nat) (datagrams : list Datagram)
           (callbacks : list (list MocapOptitrackConfig))
  : Environment RigidBody :=
  mkEnvironment (fun k => Nat.ltb k oks)
                (fun k => nth k datagrams nothing)
                (fun k => nth k callbacks [])
                (fun k => Z.of_nat k)
                decodeInto
                [x00; x00; x00; x00].

Definition description : ServerDescription :=
  mkServerDescription true 1511 1510 "239.255.42.99" [].

Definition hinted : ServerDescription :=
  mkServerDescription true 1511 1510 "239.255.42.99" [3; 0; 0; 0].

Definition hintedDisabled : ServerDescription :=
  mkServerDescription false 1511 1510 "239.255.42.99" [3; 0; 0; 0].

Definition moveTo (enable : bool) : MocapOptitrackConfig :=
  mkConfig enable 1611 1610 "239.255.42.100".

(** Nobody answers and the node is shut down after two rounds. *)
Definition silence : Environment RigidBody := surroundings 2 [] [].

(** The server answers the first request, sends a frame with two bodies,
    and during the second round of [run] the given callbacks arrive. *)
Definition session (callbacks : list MocapOptitrackConfig)
  : Environment RigidBody :=
  surroundings 6 [datagram serverInfoBytes; datagram twoBodies;
                  nothing; datagram garbage; datagram emptyFrame]
               [[]; []; callbacks].

(** Nobody answers the first request, the description is disabled while
    the node waits, and then the server answers the second request. *)
Definition interrupted : Environment RigidBody :=
  surroundings 6 [nothing; datagram serverInfoBytes] [[moveTo false]].

(** The node as constructed from each of the descriptions. *)
Definition start : Bridge RigidBody := constructed description.
Definition startHinted : Bridge RigidBody := constructed hinted.
Definition startHintedDisabled : Bridge RigidBody := constructed hintedDisabled.

(** The node of the scenarios once its socket is bound. *)
Definition bound : Bridge RigidBody :=
  set_socket (Some (mkSocket 0 1510 "239.255.42.99"))
             (logged (EvBind 0 1510 "239.255.42.99") start).

(** The node of the scenarios when [initialize] has returned. *)
Definition ready : Bridge RigidBody :=
  stateOf (initialize (session []) 4 start).

(** The node of the scenarios in the middle of streaming: after
    [initialize] and four rounds of [run] in [session []]. *)
Definition streaming : Bridge RigidBody :=
  stateOf (node_main (session []) 4 start).

End Demo.

(** ** The monad's laws of motion *)

Section Monad.

Context {RigidBody : Type}.

Lemma stateOf_bind {A B} (m : M RigidBody A) (f : A -> M RigidBody B) s :
  stateOf (bind m f s) =
  match m s with
  | Done a s' => stateOf (f a s')
  | OutOfFuel s' => s'
  | NullPointer s' => s'
  end.
Proof. unfold bind. destruct (m s); reflexivity. Qed.

Lemma bind_done {A B} (m : M RigidBody A) (f : A -> M RigidBody B) s b s' :
  bind m f s = Done b s' ->
  exists a s1, m s = Done a s1 /\ f a s1 = Done b s'.
Proof.
  unfold bind. destruct (m s) as [a s1 | s1 | s1]; intro H; try discriminate.
  exists a, s1. split; [reflexivity | exact H].
Qed.

Lemma keeps_bind {A B} (R : Bridge RigidBody -> Bridge RigidBody -> Prop)
      (m : M RigidBody A) (f : A -> M RigidBody B) :
  (forall a b c, R a b -> R b c -> R a c) ->
  keeps R m -> (forall a, keeps R (f a)) -> keeps R (bind m f).
Proof.
  intros Htrans Hm Hf s. rewrite stateOf_bind.
  specialize (Hm s). destruct (m s) as [a s1 | s1 | s1]; simpl in Hm; try exact Hm.
  eapply Htrans; [exact Hm | apply Hf].
Qed.

End Monad.

(** ** A frame rule for the whole node

    A relation between states that is reflexive, transitive and kept by each
    elementary step is kept by [initialize], [reconfigureCallback] and
    [run], however often the callbacks nest and wherever the fuel runs out.
    The elementary steps come with what is known where they happen: an event
    is logged where [stepChecked] holds, [initialized] is set in the branch
    of an enabled description, a frame is published by an initialized
    node. *)

Section Frame.

Context {RigidBody : Type} (env : Environment RigidBody).

Local Notation "'Bridge'" := (Bridge RigidBody).

Variable R : Bridge -> Bridge -> Prop.

Hypothesis R_refl : forall s, R s s.
Hypothesis R_trans : forall a b c, R a b -> R b c -> R a c.
Hypothesis R_log : forall e s,
  handshakeEvent e = true -> stepChecked e (log s) = true -> R s (logged e s).
Hypothesis R_socket : forall p s, R s (set_socket p s).
Hypothesis R_dispatcher : forall p s, R s (set_dispatcher p s).
Hypothesis R_disable : forall s, R s (set_initialized false s).
Hypothesis R_enable : forall s0 s,
  enableOptitrack (serverDescription s0) = true ->
  R s0 s -> R s0 (set_initialized true s).
Hypothesis R_callback : forall cfg s,
  R s (set_serverDescription (applyConfig cfg (serverDescription s))
                             (logged (EvCallback cfg) s)).
Hypothesis R_hint : forall s,
  version (serverDescription s) <> [] ->
  R s (set_dataModel (setVersions (version (serverDescription s))
                                  (version (serverDescription s))
                                  (dataModel s)) s).
Hypothesis R_decode : forall s k,
  0 < numBytesReceived (socket_recv env k) ->
  R s (set_dataModel
         (MessageDispatcher_dispatch env
            (firstn (Z.to_nat (numBytesReceived (socket_recv env k)))
                    (buffer (socket_recv env k)))
            (dataModel s)) s).

Ltac peel :=
  repeat match goal with
    | |- R ?s ?s => apply R_refl
    | |- R ?s (set_socket ?p ?t) =>
        apply (@R_trans s t); [ | apply R_socket]
    | |- R ?s (set_dispatcher ?p ?t) =>
        apply (@R_trans s t); [ | apply R_dispatcher]
    | |- R ?s (set_initialized false ?t) =>
        apply (@R_trans s t); [ | apply R_disable]
    | |- R ?s (logged ?e ?t) =>
        apply (@R_trans s t);
        [ | apply R_log; [reflexivity | first [reflexivity | assumption | idtac]]]
    end.

Lemma rosOk_keeps : keeps R (rosOk env).
Proof. intro s. simpl. peel. Qed.

Lemma resetSocket_keeps port addr : keeps R (resetSocket port addr).
Proof.
  intro s. unfold resetSocket. simpl.
  destruct (multicastClientSocketPtr s) as [old|]; peel.
Qed.

Lemma resetDispatcher_keeps : keeps R (@resetDispatcher RigidBody).
Proof.
  intro s. unfold resetDispatcher. simpl.
  destruct (publishDispatcherPtr s) as [old|]; peel.
Qed.

Lemma updateDataModelFromServer_keeps s :
  headIs isOkTrue (log s) || headIs isSend (log s) = true ->
  R s (stateOf (updateDataModelFromServer env s)).
Proof.
  intro Hhead. unfold updateDataModelFromServer, bind, socketRecv.
  destruct (multicastClientSocketPtr s) as [sock|]; [|apply R_refl].
  destruct (0 <? numBytesReceived (socket_recv env (count isRecv (log s)))) eqn:Hn;
    unfold dispatch, bind, emit, modify, ret, stateOf.
  - match goal with
    | |- R ?s (set_dataModel ?d ?t) => apply (@R_trans s t)
    end.
    + peel.
    + apply R_decode. apply Z.ltb_lt. exact Hn.
  - peel.
Qed.

Lemma requestAndPoll_keeps s :
  headIs isOkTrue (log s) = true ->
  R s (stateOf (requestAndPoll env s)).
Proof.
  intro Hhead. unfold requestAndPoll.
  rewrite stateOf_bind. rewrite stateOf_bind. unfold socketSend at 1.
  destruct (multicastClientSocketPtr s) as [sock|] eqn:Hsock; [|apply R_refl].
  set (s1 := logged _ s).
  assert (H1 : R s s1) by (subst s1; peel).
  assert (H2 : R s1 (stateOf (updateDataModelFromServer env s1)))
    by (apply updateDataModelFromServer_keeps; reflexivity).
  rewrite stateOf_bind.
  destruct (updateDataModelFromServer env s1) as [got s2 | s2 | s2];
    simpl in H2; try (eapply R_trans; eassumption).
  apply (@R_trans s s1); [exact H1|]. apply (@R_trans s1 s2); [exact H2|].
  destruct got; unfold emit, modify, stateOf; peel.
Qed.

Lemma forEach_keeps {A} (l : list A) (f : A -> M RigidBody unit) :
  (forall a, keeps R (f a)) -> keeps R (forEach l f).
Proof.
  intro Hf. induction l as [|a l IH]; simpl.
  - intro s. apply R_refl.
  - apply keeps_bind; [exact R_trans | apply Hf | intros _; exact IH].
Qed.

Lemma spinOnce_keeps callback :
  (forall cfg, keeps R (callback cfg)) -> keeps R (spinOnce env callback).
Proof.
  intros Hcb s. unfold spinOnce.
  apply keeps_bind; [exact R_trans | | intros _; apply forEach_keeps; exact Hcb].
  intro s'. simpl. apply R_log; reflexivity.
Qed.

Lemma reconfigureCallbackWith_keeps init cfg :
  keeps R init -> keeps R (reconfigureCallbackWith init cfg).
Proof.
  intros Hinit s. unfold reconfigureCallbackWith, bind, emit, modify.
  eapply R_trans; [apply R_callback | apply Hinit].
Qed.

Lemma handshakeLoop_keeps spin fuel :
  keeps R spin -> keeps R (handshakeLoop env spin fuel).
Proof.
  intro Hspin. induction fuel as [|fuel IH]; intro s; cbn [handshakeLoop].
  - apply R_refl.
  - unfold bind at 1. unfold rosOk at 1. unfold bind at 1.
    set (s1 := logged _ s).
    assert (H1 : R s s1) by (subst s1; peel).
    destruct (ros_ok env (count isOk (log s))) eqn:Hok;
      [destruct (hasServerInfo (dataModel s1))|]; cbn [andb negb]; try exact H1.
    apply (@R_trans s s1); [exact H1|].
    rewrite stateOf_bind.
    assert (H2 : R s1 (stateOf (requestAndPoll env s1)))
      by (apply requestAndPoll_keeps; subst s1; reflexivity).
    destruct (requestAndPoll env s1) as [[] s2 | s2 | s2]; simpl in H2; try exact H2.
    apply (@R_trans s1 s2); [exact H2|].
    apply keeps_bind; [exact R_trans | exact Hspin | intros _; exact IH].
Qed.

Lemma initialize_keeps fuel : keeps R (initialize env fuel).
Proof.
  induction fuel as [|fuel IH]; intro s; simpl.
  - apply R_refl.
  - destruct (enableOptitrack (serverDescription s)) eqn:Hen.
    + set (loop := handshakeLoop env _ fuel).
      assert (Hloop : keeps R loop).
      { apply handshakeLoop_keeps, spinOnce_keeps. intro cfg.
        apply reconfigureCallbackWith_keeps, IH. }
      rewrite stateOf_bind.
      pose proof (resetSocket_keeps (dataPort (serverDescription s))
                    (multicastIpAddress (serverDescription s)) s) as H1.
      destruct (resetSocket _ _ s) as [[] s1 | s1 | s1] eqn:Hs1; simpl in H1;
        try exact H1.
      assert (Hd : serverDescription s1 = serverDescription s).
      { unfold resetSocket in Hs1. destruct (multicastClientSocketPtr s);
          inversion Hs1; reflexivity. }
      rewrite stateOf_bind.
      assert (H2 : exists s2,
                 match version (serverDescription s) with
                 | [] => ret tt
                 | _ :: _ =>
                     emit (EvSetVersions (version (serverDescription s)));;
                     modify (fun s' => set_dataModel
                               (setVersions (version (serverDescription s))
                                            (version (serverDescription s))
                                            (dataModel s')) s')
                 end s1 = Done tt s2 /\ R s1 s2).
      { destruct (version (serverDescription s)) as [|v0 vs] eqn:Hv.
        - exists s1. split; [reflexivity | apply R_refl].
        - exists (set_dataModel (setVersions (v0 :: vs) (v0 :: vs) (dataModel s1))
                                (logged (EvSetVersions (v0 :: vs)) s1)).
          split; [reflexivity|].
          apply (@R_trans s1 (logged (EvSetVersions (v0 :: vs)) s1)); [peel|].
          assert (Hv1 : version (serverDescription
                                   (logged (EvSetVersions (v0 :: vs)) s1))
                        = v0 :: vs).
          { change (version (serverDescription s1) = v0 :: vs).
            rewrite Hd. exact Hv. }
          pose proof (R_hint (logged (EvSetVersions (v0 :: vs)) s1)) as Hh.
          rewrite Hv1 in Hh. apply Hh. discriminate. }
      destruct H2 as [s2 [E2 H2]]. rewrite E2.
      assert (H02 : R s s2) by (eapply R_trans; eassumption).
      rewrite stateOf_bind.
      pose proof (Hloop s2) as H3.
      destruct (loop s2) as [[] s3 | s3 | s3]; simpl in H3;
        try (eapply R_trans; eassumption).
      assert (H03 : R s s3) by (eapply R_trans; eassumption).
      rewrite stateOf_bind.
      pose proof (resetDispatcher_keeps s3) as H4.
      destruct (resetDispatcher s3) as [[] s4 | s4 | s4]; simpl in H4;
        try (eapply R_trans; eassumption).
      unfold bind, emit, modify, stateOf.
      apply R_enable; [exact Hen|].
      apply (@R_trans s s3); [exact H03|]. apply (@R_trans s3 s4); [exact H4|].
      peel.
    + unfold bind, emit, modify, stateOf. peel.
Qed.

Lemma reconfigureCallback_keeps fuel cfg :
  keeps R (reconfigureCallback env fuel cfg).
Proof. apply reconfigureCallbackWith_keeps, initialize_keeps. Qed.

(** What [run] does beyond [initialize]. *)
Hypothesis R_run_log : forall e s,
  handshakeEvent e = false -> isPublish e = false ->
  stepChecked e (log s) = true -> R s (logged e s).
Hypothesis R_usleep : forall usec s, R s (logged (EvUsleep usec) s).
Hypothesis R_publish : forall d t s,
  initialized s = true -> publishDispatcherPtr s = Some d ->
  R s (logged (EvPublish (dispatcherId d) t (rigidBodies (dataModel s))) s).
Hypothesis R_clear : forall s, R s (set_dataModel (clear (dataModel s)) s).

Lemma pollAndPublish_keeps s :
  headIs isOkTrue (log s) = true ->
  R s (stateOf (pollAndPublish env s)).
Proof.
  intro Hhead. unfold pollAndPublish.
  destruct (initialized s) eqn:Hinit.
  - rewrite stateOf_bind.
    pose proof (updateDataModelFromServer_keeps s) as H1.
    rewrite Hhead in H1. specialize (H1 eq_refl).
    assert (Hi : initialized (stateOf (updateDataModelFromServer env s)) = true).
    { unfold updateDataModelFromServer, bind, socketRecv.
      destruct (multicastClientSocketPtr s); [|exact Hinit].
      destruct (0 <? _); exact Hinit. }
    destruct (updateDataModelFromServer env s) as [got s1 | s1 | s1];
      simpl in H1, Hi; try exact H1.
    eapply R_trans; [exact H1|].
    destruct got.
    + unfold bind, timeNow, publish.
      change (publishDispatcherPtr (logged _ s1)) with (publishDispatcherPtr s1).
      destruct (publishDispatcherPtr s1) as [d|] eqn:Hd;
        unfold emit, modify, stateOf.
      * repeat match goal with
          | |- R ?s ?s => apply R_refl
          | |- R ?s (logged (EvUsleep ?u) ?t) =>
              apply (@R_trans s t); [ | apply R_usleep]
          | |- R ?s (set_dataModel (clear ?d) ?t) =>
              apply (@R_trans s t); [ | apply R_clear]
          | |- R ?s (logged (EvPublish ?k ?u ?b) ?t) =>
              apply (@R_trans s t); [ | apply (R_publish d); [exact Hi | exact Hd]]
          | |- R ?s (logged ?e ?t) =>
              apply (@R_trans s t); [ | apply R_run_log; reflexivity]
          end.
      * apply R_run_log; reflexivity.
    + unfold bind, ret, emit, modify, stateOf. apply R_usleep.
  - unfold emit, modify, stateOf.
    apply R_run_log; [reflexivity | reflexivity | exact Hhead].
Qed.

Lemma run_keeps fuel : keeps R (run env fuel).
Proof.
  induction fuel as [|fuel IH]; intro s; cbn [run].
  - apply R_refl.
  - unfold bind at 1. unfold rosOk at 1.
    set (s1 := logged _ s).
    assert (H1 : R s s1) by (subst s1; peel).
    destruct (ros_ok env (count isOk (log s))) eqn:Hok; [|exact H1].
    apply (@R_trans s s1); [exact H1|].
    rewrite stateOf_bind.
    assert (H2 : R s1 (stateOf (pollAndPublish env s1)))
      by (apply pollAndPublish_keeps; subst s1; reflexivity).
    destruct (pollAndPublish env s1) as [[] s2 | s2 | s2]; simpl in H2; try exact H2.
    apply (@R_trans s1 s2); [exact H2|].
    apply keeps_bind; [exact R_trans | | intros _; exact IH].
    apply spinOnce_keeps. intro cfg. apply reconfigureCallback_keeps.
Qed.

Lemma node_main_keeps fuel : keeps R (node_main env fuel).
Proof.
  unfold node_main.
  apply keeps_bind; [exact R_trans | apply initialize_keeps | intros _; apply run_keeps].
Qed.

End Frame.

(** ** What the member functions compute *)

Section Equations.

Context {RigidBody : Type} (env : Environment RigidBody).

Local Notation "'Bridge'" := (Bridge RigidBody).

Lemma count_cons (p : Event RigidBody -> bool) e l :
  count p (e :: l) = if p e then S (count p l) else count p l.
Proof. unfold count. simpl. destruct (p e); reflexivity. Qed.

Lemma count_app (p : Event RigidBody -> bool) l1 l2 :
  count p (l1 ++ l2) = (count p l1 + count p l2)%nat.
Proof. unfold count. rewrite filter_app, length_app. reflexivity. Qed.

Lemma count_none (p q : Event RigidBody -> bool) l :
  (forall e, q e = true -> p e = false) ->
  forallb q l = true -> count p l = 0%nat.
Proof.
  intros Hpq. induction l as [|e l IH]; intro H; [reflexivity|].
  simpl in H. apply andb_true_iff in H. destruct H as [He Hl].
  rewrite count_cons, (Hpq e He). apply IH, Hl.
Qed.

Lemma updateDataModelFromServer_eq (s : Bridge) sock :
  multicastClientSocketPtr s = Some sock ->
  let d := socket_recv env (count isRecv (log s)) in
  let s1 := logged (EvRecv (socketId sock) (numBytesReceived d)) s in
  updateDataModelFromServer env s =
  if 0 <? numBytesReceived d then
    Done true (set_dataModel
                 (MessageDispatcher_dispatch env (messageOf d) (dataModel s))
                 (logged (EvDecode (messageOf d)) s1))
  else Done false s1.
Proof.
  intros Hsock d s1. unfold updateDataModelFromServer, bind, socketRecv.
  rewrite Hsock. fold d. destruct (0 <? numBytesReceived d); reflexivity.
Qed.

Lemma requestAndPoll_eq (s : Bridge) sock :
  multicastClientSocketPtr s = Some sock ->
  let d := socket_recv env (count isRecv (log s)) in
  let s1 := logged (EvRecv (socketId sock) (numBytesReceived d))
              (logged (EvSend (socketId sock) (connectionRequest env)
                              (commandPort (serverDescription s))) s) in
  requestAndPoll env s =
  if 0 <? numBytesReceived d then
    Done tt (logged (EvUsleep 10)
               (set_dataModel
                  (MessageDispatcher_dispatch env (messageOf d) (dataModel s))
                  (logged (EvDecode (messageOf d)) s1)))
  else Done tt (logged (EvSleep 1) s1).
Proof.
  intros Hsock d s1. unfold requestAndPoll, bind at 1 2, socketSend.
  rewrite Hsock. unfold bind at 1.
  rewrite (@updateDataModelFromServer_eq _ sock) by exact Hsock.
  cbn [log logged]. rewrite count_cons. cbn [isRecv]. fold d.
  destruct (0 <? numBytesReceived d); reflexivity.
Qed.

(** With the server information known the handshake loop asks [ros::ok()]
    once and leaves. *)
Lemma handshakeLoop_known spin fuel (s : Bridge) :
  hasServerInfo (dataModel s) = true ->
  handshakeLoop env spin (S fuel) s =
  Done tt (logged (EvOk (ros_ok env (count isOk (log s)))) s).
Proof.
  intro Hknown. cbn [handshakeLoop]. unfold bind, rosOk.
  cbn [dataModel logged]. rewrite Hknown, andb_false_r. reflexivity.
Qed.

(** [initialize] on an enabled description, spelled out up to the loop. *)
Lemma initialize_enabled fuel (s : Bridge) :
  enableOptitrack (serverDescription s) = true ->
  let descr := serverDescription s in
  let bound :=
    set_socket (Some (mkSocket (count isBind (log s)) (dataPort descr)
                               (multicastIpAddress descr)))
      (loggedAll (closing (multicastClientSocketPtr s)
                  ++ [EvBind (count isBind (log s)) (dataPort descr)
                             (multicastIpAddress descr)]) s) in
  let seeded :=
    match version descr with
    | [] => bound
    | _ :: _ =>
        set_dataModel (setVersions (version descr) (version descr) (dataModel s))
                      (logged (EvSetVersions (version descr)) bound)
    end in
  initialize env (S fuel) s =
  (handshakeLoop env
     (spinOnce env (reconfigureCallbackWith (initialize env fuel))) fuel ;;
   resetDispatcher ;;
   emit (EvInfo "Initialization complete") ;;
   modify (set_initialized true)) seeded.
Proof.
  intros Hen descr bound seeded. cbn [initialize]. rewrite Hen.
  unfold bind at 1. unfold resetSocket. cbn [socketId].
  replace (set_socket _ _) with bound
    by (subst bound descr; destruct (multicastClientSocketPtr s); reflexivity).
  unfold bind at 1. subst seeded. fold descr.
  destruct (version descr) as [|v0 vs]; reflexivity.
Qed.

(** The end of [initialize], after the loop. *)
Lemma initialize_tail (s : Bridge) :
  (resetDispatcher ;;
   emit (EvInfo "Initialization complete") ;;
   modify (set_initialized true)) s =
  Done tt
    (set_initialized true
       (logged (EvInfo "Initialization complete")
          (set_dispatcher
             (Some (mkDispatcher (count isCreateDispatcher (log s))
                                 (getNatNetVersion (dataModel s))))
             (loggedAll (destroying (publishDispatcherPtr s)
                         ++ [EvCreateDispatcher
                               (count isCreateDispatcher (log s))
                               (getNatNetVersion (dataModel s))]) s)))).
Proof.
  unfold bind, resetDispatcher, emit, modify.
  destruct (publishDispatcherPtr s); reflexivity.
Qed.

Lemma initialize_disabled fuel (s : Bridge) :
  enableOptitrack (serverDescription s) = false ->
  initialize env (S fuel) s =
  Done tt (set_initialized false (logged (EvInfo "Initialization incomplete") s)).
Proof. intro Hen. cbn [initialize]. rewrite Hen. reflexivity. Qed.

End Equations.

(** ** The version hint is never written *)

Section VersionFrame.

Context {RigidBody : Type} (env : Environment RigidBody).

Lemma reconfigureCallback_sameVersion fuel cfg :
  keeps sameVersion (reconfigureCallback env fuel cfg).
Proof.
  apply reconfigureCallback_keeps; unfold sameVersion;
    solve [ reflexivity | intros; reflexivity | intros; congruence
          | intros; assumption ].
Qed.

Lemma run_sameVersion fuel : keeps sameVersion (run env fuel).
Proof.
  apply run_keeps; unfold sameVersion;
    solve [ reflexivity | intros; reflexivity | intros; congruence
          | intros; assumption ].
Qed.

End VersionFrame.

(** ** The claims *)

Section Claims.

Context {RigidBody : Type} (env : Environment RigidBody).

Local Notation "'Bridge'" := (Bridge RigidBody).

(** C9.  [updateDataModelFromServer] returns true exactly when [recv]
    yielded a positive number of bytes, whatever the codec made of them;
    when it returns false the data model is as before and nothing was handed
    to the codec. *)
Theorem updateDataModelFromServer_true_iff_bytes (s : Bridge) sock :
  multicastClientSocketPtr s = Some sock ->
  let d := socket_recv env (count isRecv (log s)) in
  exists got s',
    updateDataModelFromServer env s = Done got s' /\
    (got = true <-> 0 < numBytesReceived d) /\
    (got = true ->
     dataModel s' = MessageDispatcher_dispatch env (messageOf d) (dataModel s)) /\
    (got = false ->
     dataModel s' = dataModel s /\
     count isDecode (log s') = count isDecode (log s)).
Proof.
  intros Hsock d. rewrite (updateDataModelFromServer_eq env s sock Hsock).
  fold d. destruct (0 <? numBytesReceived d) eqn:Hn.
  - eexists _, _. split; [reflexivity|]. apply Z.ltb_lt in Hn.
    repeat split; try (intros; discriminate); auto.
  - eexists _, _. split; [reflexivity|]. apply Z.ltb_ge in Hn.
    repeat split; try (intros; discriminate); try (intros; lia); auto.
Qed.

(** C8, amended.  In an iteration of the handshake loop the pause after a
    receive that yielded bytes is [usleep(10)], ten microseconds, and the
    pause after a receive that yielded nothing is [sleep(1)], one second. *)
Theorem handshake_pause (s : Bridge) sock :
  multicastClientSocketPtr s = Some sock ->
  let d := socket_recv env (count isRecv (log s)) in
  exists s' rest,
    requestAndPoll env s = Done tt s' /\
    log s' = (if 0 <? numBytesReceived d then EvUsleep 10 else EvSleep 1) :: rest /\
    option_map pauseMicroseconds (hd_error (log s')) =
    Some (Some (if 0 <? numBytesReceived d then 10 else 1000000)).
Proof.
  intros Hsock d. rewrite (requestAndPoll_eq env s sock Hsock).
  fold d. destruct (0 <? numBytesReceived d);
    eexists _, _; repeat split; reflexivity.
Qed.

End Claims.

(** C9 at the first datagram of the session. *)
Lemma updateDataModelFromServer_true_iff_bytes_witness :
  multicastClientSocketPtr Demo.bound = Some (mkSocket 0 1510 "239.255.42.99") /\
  let d := socket_recv (Demo.session []) (count isRecv (log Demo.bound)) in
  exists got s',
    updateDataModelFromServer (Demo.session []) Demo.bound = Done got s' /\
    (got = true <-> 0 < numBytesReceived d) /\
    (got = true ->
     dataModel s' = MessageDispatcher_dispatch (Demo.session []) (messageOf d)
                                               (dataModel Demo.bound)) /\
    (got = false ->
     dataModel s' = dataModel Demo.bound /\
     count isDecode (log s') = count isDecode (log Demo.bound)).
Proof.
  split; [reflexivity|].
  exact (updateDataModelFromServer_true_iff_bytes
           (Demo.session []) Demo.bound (mkSocket 0 1510 "239.255.42.99") eq_refl).
Defined.

(** C8 as the spec has it fails: the server answered, and the pause that
    follows is ten microseconds, not ten milliseconds. *)
Lemma handshake_pause_not_10ms :
  exists s' e rest,
    0 < numBytesReceived (socket_recv (Demo.session []) 0) /\
    requestAndPoll (Demo.session []) Demo.bound = Done tt s' /\
    log s' = e :: rest /\
    pauseMicroseconds e = Some 10 /\
    pauseMicroseconds e <> Some (10 * 1000).
Proof.
  eexists _, _, _. split; [reflexivity|]. split; [reflexivity|].
  split; [reflexivity|]. split; [reflexivity | discriminate].
Qed.

Lemma handshake_pause_witness :
  multicastClientSocketPtr Demo.bound = Some (mkSocket 0 1510 "239.255.42.99") /\
  let d := socket_recv Demo.silence (count isRecv (log Demo.bound)) in
  exists s' rest,
    requestAndPoll Demo.silence Demo.bound = Done tt s' /\
    log s' = (if 0 <? numBytesReceived d then EvUsleep 10 else EvSleep 1) :: rest /\
    option_map pauseMicroseconds (hd_error (log s')) =
    Some (Some (if 0 <? numBytesReceived d then 10 else 1000000)).
Proof.
  split; [reflexivity|].
  exact (handshake_pause Demo.silence Demo.bound
                         (mkSocket 0 1510 "239.255.42.99") eq_refl).
Defined.

Section Hint.

Context {RigidBody : Type} (env : Environment RigidBody).

Local Notation "'Bridge'" := (Bridge RigidBody).

(** [initialize] on an enabled description that carries a version hint. *)
Lemma initialize_hinted fuel (s : Bridge) :
  enableOptitrack (serverDescription s) = true ->
  version (serverDescription s) <> [] ->
  let descr := serverDescription s in
  let sock := mkSocket (count isBind (log s)) (dataPort descr)
                       (multicastIpAddress descr) in
  let info := mkServerInfo (version descr) (version descr) in
  let disp := mkDispatcher (count isCreateDispatcher (log s))
                           (Some (version descr)) in
  initialize env (S (S fuel)) s =
  Done tt
    (mkBridge descr
       (mkDataModel (Some info) (rigidBodies (dataModel s)))
       (Some sock) (Some disp) true
       (EvInfo "Initialization complete"
        :: destroying (publishDispatcherPtr s)
        ++ EvCreateDispatcher (dispatcherId disp) (Some (version descr))
        :: EvOk (ros_ok env (count isOk (log s)))
        :: EvSetVersions (version descr)
        :: closing (multicastClientSocketPtr s)
        ++ EvBind (socketId sock) (dataPort descr) (multicastIpAddress descr)
        :: log s)).
Proof.
  intros Hen Hv descr sock info disp.
  rewrite (initialize_enabled env (S fuel) s Hen). fold descr.
  destruct (version descr) as [|v0 vs] eqn:Ev; [contradiction|].
  unfold bind at 1. rewrite handshakeLoop_known by reflexivity.
  rewrite initialize_tail. subst sock info disp. cbn.
  destruct (multicastClientSocketPtr s), (publishDispatcherPtr s); reflexivity.
Qed.

(** C5, amended.  For every description that is enabled and whose version
    hint is not empty, [initialize] binds the socket to the data port and the
    multicast address, seeds the server information from the hint before the
    handshake loop, and leaves the loop at its first test: no connection
    request is sent, nothing is received, nothing is decoded. *)
Theorem initialize_hint_skips_handshake fuel (s : Bridge) :
  enableOptitrack (serverDescription s) = true ->
  version (serverDescription s) <> [] ->
  let descr := serverDescription s in
  let sock := mkSocket (count isBind (log s)) (dataPort descr)
                       (multicastIpAddress descr) in
  exists s',
    initialize env (S (S fuel)) s = Done tt s' /\
    log s' =
      EvInfo "Initialization complete"
      :: destroying (publishDispatcherPtr s)
      ++ EvCreateDispatcher (count isCreateDispatcher (log s))
                            (Some (version descr))
      :: EvOk (ros_ok env (count isOk (log s)))
      :: EvSetVersions (version descr)
      :: closing (multicastClientSocketPtr s)
      ++ EvBind (socketId sock) (dataPort descr) (multicastIpAddress descr)
      :: log s /\
    multicastClientSocketPtr s' = Some sock /\
    serverInfo (dataModel s') =
      Some (mkServerInfo (version descr) (version descr)) /\
    count isSend (log s') = count isSend (log s) /\
    count isRecv (log s') = count isRecv (log s) /\
    count isDecode (log s') = count isDecode (log s).
Proof.
  intros Hen Hv descr sock.
  rewrite (initialize_hinted fuel s Hen Hv). eexists. split; [reflexivity|].
  cbn [log multicastClientSocketPtr dataModel serverInfo].
  repeat split;
    destruct (multicastClientSocketPtr s), (publishDispatcherPtr s); reflexivity.
Qed.

(** C10.  [reconfigureCallback], [initialize] and [run] never write the
    version field of the stored description, however many callbacks arrive;
    the callback writes the four other fields from the configuration; and an
    enabling callback on a description with a hint seeds the server
    information from that hint again. *)
Theorem reconfigure_keeps_version_hint fuel cfg (s : Bridge) :
  version (serverDescription (stateOf (reconfigureCallback env fuel cfg s)))
  = version (serverDescription s) /\
  version (serverDescription (stateOf (run env fuel s)))
  = version (serverDescription s) /\
  (enable_optitrack cfg = true ->
   version (serverDescription s) <> [] ->
   exists s',
     reconfigureCallback env (S (S fuel)) cfg s = Done tt s' /\
     serverDescription s' =
       mkServerDescription true (command_port cfg) (data_port cfg)
                           (multicast_address cfg)
                           (version (serverDescription s)) /\
     serverInfo (dataModel s') =
       Some (mkServerInfo (version (serverDescription s))
                          (version (serverDescription s))) /\
     count isSend (log s') = count isSend (log s)).
Proof.
  split; [apply (reconfigureCallback_sameVersion env fuel cfg s)|].
  split; [apply (run_sameVersion env fuel s)|].
  intros Hen Hv. unfold reconfigureCallback, reconfigureCallbackWith.
  unfold bind at 1 2, emit, modify.
  rewrite initialize_hinted by (cbn; assumption).
  eexists. split; [reflexivity|].
  cbn [serverDescription dataModel serverInfo log set_serverDescription
       logged applyConfig version commandPort dataPort multicastIpAddress
       enableOptitrack].
  unfold applyConfig. rewrite Hen. repeat split.
  cbn [publishDispatcherPtr multicastClientSocketPtr set_serverDescription logged].
  destruct (multicastClientSocketPtr s), (publishDispatcherPtr s); reflexivity.
Qed.

End Hint.

Lemma initialize_hint_skips_handshake_witness :
  enableOptitrack (serverDescription Demo.startHinted) = true /\
  version (serverDescription Demo.startHinted) <> [] /\
  exists s' : Bridge Demo.RigidBody,
    initialize Demo.silence 2 Demo.startHinted = Done tt s' /\
    log s' =
      [EvInfo "Initialization complete"; EvCreateDispatcher 0 (Some [3; 0; 0; 0]);
       EvOk true; EvSetVersions [3; 0; 0; 0]; EvBind 0 1510 "239.255.42.99"] /\
    multicastClientSocketPtr s' = Some (mkSocket 0 1510 "239.255.42.99") /\
    serverInfo (dataModel s') =
      Some (mkServerInfo [3; 0; 0; 0] [3; 0; 0; 0]) /\
    count isSend (log s') = 0%nat /\
    count isRecv (log s') = 0%nat /\
    count isDecode (log s') = 0%nat.
Proof.
  split; [reflexivity|]. split; [discriminate|].
  apply (initialize_hint_skips_handshake
           Demo.silence 0 Demo.startHinted);
    [reflexivity | discriminate].
Defined.

(** C5 as the spec has it fails: a description with a hint that is not
    enabled binds no socket and seeds nothing. *)
Lemma initialize_hint_disabled_binds_nothing :
  version Demo.hintedDisabled <> [] /\
  exists s' : Bridge Demo.RigidBody,
    initialize Demo.silence 2 Demo.startHintedDisabled = Done tt s' /\
    count isBind (log s') = 0%nat /\
    multicastClientSocketPtr s' = None /\
    hasServerInfo (dataModel s') = false.
Proof.
  split; [discriminate|]. eexists. repeat split; reflexivity.
Qed.

Lemma reconfigure_keeps_version_hint_witness :
  enable_optitrack (Demo.moveTo true) = true /\
  version (serverDescription Demo.startHinted) <> [] /\
  exists s' : Bridge Demo.RigidBody,
    reconfigureCallback Demo.silence 2 (Demo.moveTo true)
                        Demo.startHinted = Done tt s' /\
    serverDescription s' =
      mkServerDescription true 1611 1610 "239.255.42.100" [3; 0; 0; 0] /\
    serverInfo (dataModel s') =
      Some (mkServerInfo [3; 0; 0; 0] [3; 0; 0; 0]) /\
    count isSend (log s') = 0%nat.
Proof.
  split; [reflexivity|]. split; [discriminate|].
  apply (reconfigure_keeps_version_hint
           Demo.silence 0 (Demo.moveTo true) Demo.startHinted);
    [reflexivity | discriminate].
Defined.

(** ** Instances of the frame rule *)

Section Instances.

Context {RigidBody : Type} (env : Environment RigidBody).

Local Notation "'Bridge'" := (Bridge RigidBody).

Lemma extends_refl p (s : Bridge) : extends p s s.
Proof. exists []. split; reflexivity. Qed.

Lemma extends_trans p (a b c : Bridge) :
  extends p a b -> extends p b c -> extends p a c.
Proof.
  intros [n1 [E1 F1]] [n2 [E2 F2]]. exists (n2 ++ n1). split.
  - rewrite E2, E1. apply app_assoc.
  - rewrite forallb_app, F1, F2. reflexivity.
Qed.

(** [initialize] logs handshake events only. *)
Lemma initialize_extends fuel :
  keeps (extends handshakeEvent) (initialize env fuel).
Proof.
  apply initialize_keeps.
  - apply extends_refl.
  - apply extends_trans.
  - intros e s He _. exists [e]. split; [reflexivity|]. simpl. rewrite He. reflexivity.
  - intros p s. exists []. split; reflexivity.
  - intros p s. exists []. split; reflexivity.
  - intros s. exists []. split; reflexivity.
  - intros s0 s _ [new [E F]]. exists new. split; assumption.
  - intros cfg s. exists [EvCallback cfg]. split; reflexivity.
  - intros s _. exists []. split; reflexivity.
  - intros s k _. exists []. split; reflexivity.
Qed.

Lemma handshakeEvent_not_publish (e : Event RigidBody) :
  handshakeEvent e = true -> isPublish e = false.
Proof. destruct e; simpl; intro H; try reflexivity; discriminate. Qed.

Lemma initialize_publishCount fuel (s : Bridge) :
  publishCount (log (stateOf (initialize env fuel s))) = publishCount (log s).
Proof.
  destruct (initialize_extends fuel s) as [new [E F]].
  unfold publishCount. rewrite E, count_app.
  rewrite (count_none isPublish handshakeEvent new handshakeEvent_not_publish F).
  reflexivity.
Qed.

(** When the handshake loop is left, its last act was a [ros::ok()], and
    if that answered true the server information is known. *)
Lemma handshakeLoop_exit spin fuel (s s' : Bridge) :
  handshakeLoop env spin fuel s = Done tt s' ->
  exists l,
    log s' = EvOk (ros_ok env (count isOk l)) :: l /\
    (ros_ok env (count isOk l) = true -> hasServerInfo (dataModel s') = true).
Proof.
  revert s. induction fuel as [|fuel IH]; intros s H; [discriminate|].
  cbn [handshakeLoop] in H. unfold bind at 1 in H. unfold rosOk at 1 in H.
  unfold bind at 1 in H.
  change (dataModel (logged _ s)) with (dataModel s) in H.
  destruct (ros_ok env (count isOk (log s))) eqn:Hok;
    [destruct (hasServerInfo (dataModel s)) eqn:Hknown|]; cbn [andb negb] in H.
  - inversion H; subst s'. exists (log s). rewrite Hok. split; [reflexivity|].
    intros _. exact Hknown.
  - apply bind_done in H. destruct H as [[] [s2 [_ H]]].
    apply bind_done in H. destruct H as [[] [s3 [_ H]]].
    apply (IH s3 H).
  - inversion H; subst s'. exists (log s). rewrite Hok. split; [reflexivity|].
    intro Hc. discriminate.
Qed.

(** A returned [initialize] on an enabled description, read backwards:
    the state the loop was left in, and the tail applied to it. *)
Lemma initialize_done fuel (s s' : Bridge) :
  enableOptitrack (serverDescription s) = true ->
  initialize env fuel s = Done tt s' ->
  exists s3 l,
    log s3 = EvOk (ros_ok env (count isOk l)) :: l /\
    (ros_ok env (count isOk l) = true -> hasServerInfo (dataModel s3) = true) /\
    s' = set_initialized true
           (logged (EvInfo "Initialization complete")
              (set_dispatcher
                 (Some (mkDispatcher (count isCreateDispatcher (log s3))
                                     (getNatNetVersion (dataModel s3))))
                 (loggedAll (destroying (publishDispatcherPtr s3)
                             ++ [EvCreateDispatcher
                                   (count isCreateDispatcher (log s3))
                                   (getNatNetVersion (dataModel s3))]) s3))).
Proof.
  intros Hen H. destruct fuel as [|fuel]; [discriminate|].
  rewrite (initialize_enabled env fuel s Hen) in H.
  apply bind_done in H. destruct H as [[] [s3 [Hloop H]]].
  rewrite initialize_tail in H. inversion H; subst s'.
  destruct (handshakeLoop_exit _ _ _ _ Hloop) as [l [El Hl]].
  exists s3, l. repeat split; assumption.
Qed.

Lemma lastOk_skip (pre : list (Event RigidBody)) e l :
  forallb (fun x => negb (isOk x)) pre = true ->
  isOk e = true ->
  lastOk (pre ++ e :: l) = Some e.
Proof.
  intros Hpre He. unfold lastOk. induction pre as [|x pre IH]; simpl.
  - rewrite He. reflexivity.
  - simpl in Hpre. apply andb_true_iff in Hpre. destruct Hpre as [Hx Hpre].
    apply negb_true_iff in Hx. rewrite Hx. apply IH, Hpre.
Qed.

Lemma initialize_done_lastOk fuel (s s' : Bridge) :
  enableOptitrack (serverDescription s) = true ->
  initialize env fuel s = Done tt s' ->
  exists k d,
    lastOk (log s') = Some (EvOk (ros_ok env k)) /\
    publishDispatcherPtr s' = Some d /\
    dispatcherVersion d = getNatNetVersion (dataModel s') /\
    (ros_ok env k = true -> hasServerInfo (dataModel s') = true).
Proof.
  intros Hen H.
  destruct (initialize_done fuel s s' Hen H) as [s3 [l [El [Hl Es]]]].
  exists (count isOk l), (mkDispatcher (count isCreateDispatcher (log s3))
                                      (getNatNetVersion (dataModel s3))).
  subst s'. cbn [log dataModel publishDispatcherPtr set_initialized logged
                 set_dispatcher loggedAll dispatcherVersion].
  repeat split; try assumption.
  rewrite El.
  change (EvInfo "Initialization complete"
            :: (destroying (publishDispatcherPtr s3)
                ++ [EvCreateDispatcher (count isCreateDispatcher
                                          (EvOk (ros_ok env (count isOk l)) :: l))
                                       (getNatNetVersion (dataModel s3))])
            ++ EvOk (ros_ok env (count isOk l)) :: l)
    with ((EvInfo "Initialization complete"
            :: destroying (publishDispatcherPtr s3)
                ++ [EvCreateDispatcher (count isCreateDispatcher
                                          (EvOk (ros_ok env (count isOk l)) :: l))
                                       (getNatNetVersion (dataModel s3))])
            ++ EvOk (ros_ok env (count isOk l)) :: l).
  apply lastOk_skip; [|reflexivity].
  destruct (publishDispatcherPtr s3); reflexivity.
Qed.

End Instances.

Section Handshake.

Context {RigidBody : Type} (env : Environment RigidBody).

Local Notation "'Bridge'" := (Bridge RigidBody).

(** X12.  However far [initialize] gets, and whatever callbacks nest inside
    it, it makes no publish call: where it finishes or stops, the log holds
    as many publishes as it held before.  And when [initialize] returns on
    an enabled description after a [ros::ok()] that answered true, the
    server information is known and the publish dispatcher it has built
    holds the version of that information. *)
Theorem initialize_never_publishes fuel (s : Bridge) :
  publishCount (log (stateOf (initialize env fuel s))) = publishCount (log s) /\
  (enableOptitrack (serverDescription s) = true ->
   forall s', initialize env fuel s = Done tt s' ->
   lastOk (log s') = Some (EvOk true) ->
   hasServerInfo (dataModel s') = true /\
   exists d v,
     publishDispatcherPtr s' = Some d /\
     dispatcherVersion d = Some v /\
     getNatNetVersion (dataModel s') = Some v).
Proof.
  split; [apply initialize_publishCount|].
  intros Hen s' H Hlast.
  destruct (initialize_done_lastOk env fuel s s' Hen H)
    as [k [d [Hl [Hd [Hv Hk]]]]].
  rewrite Hl in Hlast.
  assert (Hok : ros_ok env k = true) by congruence.
  specialize (Hk Hok). split; [exact Hk|].
  unfold hasServerInfo in Hk. unfold getNatNetVersion in *.
  destruct (serverInfo (dataModel s')) as [info|]; [|discriminate].
  exists d, (natNetVersion info). repeat split; assumption.
Qed.

End Handshake.

(** C1, at the failing input.  The description is enabled and carries no
    hint, nobody answers, and [ros::ok()] answers true twice and then false:
    the node is shut down during the handshake.  [initialize] has published
    nothing and has handed nothing to the codec, as the claim says; but it
    has left the loop without server information and has built the publish
    dispatcher all the same, from a data model that holds no version,
    against the comment on line 101. *)
Lemma dispatcher_built_without_server_info :
  exists s' d,
    initialize Demo.silence 5 Demo.start = Done tt s' /\
    publishCount (log s') = 0%nat /\
    count isDecode (log s') = 0%nat /\
    lastOk (log s') = Some (EvOk false) /\
    hasServerInfo (dataModel s') = false /\
    publishDispatcherPtr s' = Some d /\
    dispatcherVersion d = None /\
    In (EvCreateDispatcher 0 None) (log s').
Proof.
  eexists _, _. split; [vm_compute; reflexivity|].
  split; [reflexivity|]. split; [reflexivity|]. split; [reflexivity|].
  split; [reflexivity|]. split; [reflexivity|]. split; [reflexivity|].
  simpl. right. left. reflexivity.
Qed.

Lemma initialize_never_publishes_witness :
  enableOptitrack (serverDescription Demo.start) = true /\
  exists s',
    initialize (Demo.session []) 5 Demo.start = Done tt s' /\
    lastOk (log s') = Some (EvOk true) /\
    publishCount (log s') = 0%nat /\
    hasServerInfo (dataModel s') = true /\
    exists d v,
      publishDispatcherPtr s' = Some d /\
      dispatcherVersion d = Some v /\
      getNatNetVersion (dataModel s') = Some v.
Proof.
  split; [reflexivity|].
  destruct (initialize_never_publishes (Demo.session []) 5 Demo.start)
    as [H1 H2].
  eexists. split; [vm_compute; reflexivity|]. split; [reflexivity|].
  split; [exact H1|].
  apply (H2 eq_refl); [vm_compute; reflexivity | reflexivity].
Defined.

Section Shutdown.

Context {RigidBody : Type} (env : Environment RigidBody).

Local Notation "'Bridge'" := (Bridge RigidBody).

(** No datagram that arrives makes the codec report server information. *)
Hypothesis server_silent : forall k dm,
  0 < numBytesReceived (socket_recv env k) ->
  hasServerInfo dm = false ->
  hasServerInfo (MessageDispatcher_dispatch env (messageOf (socket_recv env k)) dm)
  = false.

Lemma initialize_staysUnknown fuel :
  keeps staysUnknown (initialize env fuel).
Proof.
  apply initialize_keeps; unfold staysUnknown, unknownServer.
  - intros s H. exact H.
  - intros a b c Hab Hbc H. apply Hbc, Hab, H.
  - intros e s _ _ H. exact H.
  - intros p s H. exact H.
  - intros p s H. exact H.
  - intros s H. exact H.
  - intros s0 s _ Hs H. apply Hs, H.
  - intros cfg s H. exact H.
  - intros s Hv [Hv' _]. contradiction.
  - intros s k Hk [Hv Hi]. split; [exact Hv|]. apply server_silent; assumption.
Qed.

(** With no hint and a silent server, [initialize] returns only after a
    [ros::ok()] that answered false. *)
Lemma initialize_returns_on_shutdown fuel (s s' : Bridge) :
  enableOptitrack (serverDescription s) = true ->
  unknownServer s ->
  initialize env fuel s = Done tt s' ->
  exists k, ros_ok env k = false /\ lastOk (log s') = Some (EvOk false).
Proof.
  intros Hen Hun H.
  destruct (initialize_done_lastOk env fuel s s' Hen H) as [k [d [Hl [_ [_ Hk]]]]].
  pose proof (initialize_staysUnknown fuel s Hun) as Hun'.
  rewrite H in Hun'. destruct Hun' as [_ Hinfo]. simpl in Hinfo.
  destruct (ros_ok env k) eqn:Hok.
  - rewrite (Hk eq_refl) in Hinfo. discriminate.
  - exists k. split; [exact Hok | exact Hl].
Qed.

End Shutdown.

Section Consulted.

Context {RigidBody : Type} (env : Environment RigidBody).

Local Notation "'Bridge'" := (Bridge RigidBody).

Lemma staysChecked_log (e : Event RigidBody) (s : Bridge) :
  stepChecked e (log s) = true -> staysChecked s (logged e s).
Proof.
  intros He H. cbn [log logged checkedAtTop]. rewrite He, H. reflexivity.
Qed.

Lemma node_main_staysChecked fuel :
  keeps staysChecked (initialize env fuel) /\
  keeps staysChecked (run env fuel).
Proof.
  split; [apply initialize_keeps | apply run_keeps];
    try (intros s H; exact H);
    try (intros a b c Hab Hbc H; apply Hbc, Hab, H);
    try (intros e s _ He; apply staysChecked_log, He);
    try (intros p s H; exact H);
    try (intros s0 s _ Hs H; apply Hs, H);
    try (intros cfg s H; apply (staysChecked_log (EvCallback cfg) s eq_refl H));
    try (intros s _ H; exact H);
    try (intros s k _ H; exact H);
    try (intros e s _ _ He; apply staysChecked_log, He);
    try (intros u s; apply staysChecked_log; reflexivity);
    try (intros d t s _ _; apply staysChecked_log; reflexivity).
Qed.

End Consulted.

Section Unbounded.

Context {RigidBody : Type} (env : Environment RigidBody).

Local Notation "'Bridge'" := (Bridge RigidBody).

(** C7.  With no version hint and a server whose datagrams, if any, never
    carry server information, the handshake loop of an enabled node is left
    only through a [ros::ok()] that answered false: a returned [initialize]
    has such an answer as the last one in its log, and while [ros::ok()]
    keeps answering true [initialize] does not return, whatever the fuel.
    And for every node, whatever it knows and whatever it is switched to:
    in the logs of [initialize], of [run] and of [main] every iteration of
    the handshake loop and of the loop of [run] starts right after a
    [ros::ok()] that answered true. *)
Theorem handshake_exits_only_on_shutdown fuel (s : Bridge) :
  ((forall k dm,
      0 < numBytesReceived (socket_recv env k) ->
      hasServerInfo dm = false ->
      hasServerInfo
        (MessageDispatcher_dispatch env (messageOf (socket_recv env k)) dm)
      = false) ->
   enableOptitrack (serverDescription s) = true ->
   unknownServer s ->
   (forall s', initialize env fuel s = Done tt s' ->
      exists k, ros_ok env k = false /\ lastOk (log s') = Some (EvOk false)) /\
   ((forall k, ros_ok env k = true) ->
    isDone (initialize env fuel s) = false)) /\
  (checkedAtTop (log s) = true ->
   checkedAtTop (log (stateOf (initialize env fuel s))) = true /\
   checkedAtTop (log (stateOf (run env fuel s))) = true /\
   checkedAtTop (log (stateOf (node_main env fuel s))) = true).
Proof.
  split.
  - intros Hsilent Hen Hun. split.
    + intros s' H.
      exact (initialize_returns_on_shutdown env Hsilent fuel s s' Hen Hun H).
    + intros Halways.
      destruct (initialize env fuel s) as [[] s' | s' | s'] eqn:H;
        try reflexivity.
      destruct (initialize_returns_on_shutdown env Hsilent fuel s s' Hen Hun H)
        as [k [Hk _]].
      rewrite Halways in Hk. discriminate.
  - intros Hc. destruct (node_main_staysChecked env fuel) as [Hi Hr].
    split; [apply (Hi s Hc)|]. split; [apply (Hr s Hc)|].
    unfold node_main. rewrite stateOf_bind.
    pose proof (Hi s Hc) as H1.
    destruct (initialize env fuel s) as [[] s1 | s1 | s1];
      cbn [stateOf] in H1; try exact H1.
    apply (Hr s1 H1).
Qed.

End Unbounded.

(** C7 at a handshake that nobody answers, and at a node that streams: it
    receives four times, publishes three frames, and is shut down. *)
Lemma handshake_exits_only_on_shutdown_witness :
  (forall k dm,
     0 < numBytesReceived (socket_recv Demo.silence k) ->
     hasServerInfo dm = false ->
     hasServerInfo
       (MessageDispatcher_dispatch Demo.silence
          (messageOf (socket_recv Demo.silence k)) dm) = false) /\
  enableOptitrack (serverDescription Demo.start) = true /\
  unknownServer Demo.start /\
  (exists s',
     initialize Demo.silence 5 Demo.start = Done tt s' /\
     exists k, ros_ok Demo.silence k = false /\
               lastOk (log s') = Some (EvOk false)) /\
  checkedAtTop (log Demo.ready) = true /\
  hasServerInfo (dataModel Demo.ready) = true /\
  initialized Demo.ready = true /\
  count isRecv (log (stateOf (run (Demo.session []) 8 Demo.ready))) = 5%nat /\
  publishCount (log (stateOf (run (Demo.session []) 8 Demo.ready))) = 3%nat /\
  isDone (run (Demo.session []) 8 Demo.ready) = true /\
  checkedAtTop (log (stateOf (initialize (Demo.session []) 8 Demo.ready)))
  = true /\
  checkedAtTop (log (stateOf (run (Demo.session []) 8 Demo.ready))) = true /\
  checkedAtTop (log (stateOf (node_main (Demo.session []) 8 Demo.ready)))
  = true.
Proof.
  assert (Hsilent : forall k dm,
            0 < numBytesReceived (socket_recv Demo.silence k) ->
            hasServerInfo dm = false ->
            hasServerInfo
              (MessageDispatcher_dispatch Demo.silence
                 (messageOf (socket_recv Demo.silence k)) dm) = false).
  { intros k dm Hk _. exfalso. destruct k; simpl in Hk; lia. }
  assert (Hun : unknownServer Demo.start) by (split; reflexivity).
  destruct (handshake_exits_only_on_shutdown Demo.silence 5 Demo.start)
    as [H1 _].
  destruct (H1 Hsilent eq_refl Hun) as [H2 _].
  destruct (handshake_exits_only_on_shutdown (Demo.session []) 8 Demo.ready)
    as [_ H3].
  split; [exact Hsilent|]. split; [reflexivity|]. split; [exact Hun|]. split.
  - eexists. split; [vm_compute; reflexivity|]. apply H2. vm_compute. reflexivity.
  - split; [reflexivity|]. split; [reflexivity|]. split; [reflexivity|].
    split; [reflexivity|]. split; [reflexivity|]. split; [reflexivity|].
    exact (H3 eq_refl).
Defined.

Section Quiet.

Context {RigidBody : Type} (env : Environment RigidBody).

Local Notation "'Bridge'" := (Bridge RigidBody).

Variable base : list (Event RigidBody).

Lemma staysQuiet_refl (s : Bridge) : staysQuiet base s s.
Proof. split; [exists []; reflexivity | intro H; exact H]. Qed.

Lemma staysQuiet_trans (a b c : Bridge) :
  staysQuiet base a b -> staysQuiet base b c -> staysQuiet base a c.
Proof.
  intros [[e1 E1] H1] [[e2 E2] H2]. split.
  - exists (e2 ++ e1). rewrite E2, E1. apply app_assoc.
  - intro H. apply H2, H1, H.
Qed.

(** A step that changes neither the log nor what the node is switched to. *)
Lemma staysQuiet_silent (s s' : Bridge) :
  log s' = log s ->
  (initialized s' = true \/ enableOptitrack (serverDescription s') = true ->
   initialized s = true \/ enableOptitrack (serverDescription s) = true) ->
  staysQuiet base s s'.
Proof.
  intros El Hsw. split; [exists []; exact El|].
  intros [new [E [Q En]]]. exists new. rewrite El.
  split; [exact E|]. split; [exact Q|]. intro H. apply En, Hsw, H.
Qed.

(** A logged event other than a publish. *)
Lemma staysQuiet_log e (s : Bridge) :
  isPublish e = false -> staysQuiet base s (logged e s).
Proof.
  intro He. split; [exists [e]; reflexivity|].
  intros [new [E [Q En]]]. exists (e :: new). cbn [log logged].
  split; [rewrite E; reflexivity|]. split.
  - cbn [quietUntilEnabled]. rewrite He, Q. reflexivity.
  - intro H. cbn [existsb]. rewrite (En H). apply orb_true_r.
Qed.

Lemma staysQuiet_publish d t (s : Bridge) :
  initialized s = true ->
  staysQuiet base s
    (logged (EvPublish (dispatcherId d) t (rigidBodies (dataModel s))) s).
Proof.
  intro Hinit. split; [eexists [_]; reflexivity|].
  intros [new [E [Q En]]]. eexists (_ :: new). cbn [log logged].
  split; [rewrite E; reflexivity|].
  assert (Hen : existsb isEnabling new = true) by (apply En; left; exact Hinit).
  split.
  - cbn [quietUntilEnabled isPublish]. rewrite Hen, Q. reflexivity.
  - intros _. cbn [existsb]. rewrite Hen. apply orb_true_r.
Qed.

Lemma staysQuiet_callback cfg (s : Bridge) :
  staysQuiet base s
    (set_serverDescription (applyConfig cfg (serverDescription s))
                           (logged (EvCallback cfg) s)).
Proof.
  split; [exists [EvCallback cfg]; reflexivity|].
  intros [new [E [Q En]]]. exists (EvCallback cfg :: new).
  cbn [log logged set_serverDescription].
  split; [rewrite E; reflexivity|]. split.
  - cbn [quietUntilEnabled isPublish]. exact Q.
  - cbn [initialized serverDescription enableOptitrack applyConfig existsb
         isEnabling].
    intros [Hi | Hc].
    + rewrite (En (or_introl Hi)). apply orb_true_r.
    + change (enable_optitrack cfg = true) in Hc.
      change (enable_optitrack cfg || existsb isEnabling new = true).
      rewrite Hc. reflexivity.
Qed.

Lemma staysQuiet_enable (s0 s : Bridge) :
  enableOptitrack (serverDescription s0) = true ->
  staysQuiet base s0 s -> staysQuiet base s0 (set_initialized true s).
Proof.
  intros Hen [[ext Eext] Hq]. split; [exists ext; exact Eext|].
  intros H0. destruct (Hq H0) as [new [E [Q _]]].
  destruct H0 as [new0 [E0 [_ En0]]].
  exists new. cbn [log set_initialized].
  split; [exact E|]. split; [exact Q|]. intros _.
  assert (Hnew : new = ext ++ new0).
  { apply (app_inv_tail base). rewrite <- E, Eext, E0. apply app_assoc. }
  rewrite Hnew, existsb_app, (En0 (or_intror Hen)). apply orb_true_r.
Qed.

Ltac quiet_steps :=
  first
    [ apply staysQuiet_refl
    | apply staysQuiet_trans
    | apply staysQuiet_enable
    | apply staysQuiet_callback
    | intros e s He _; apply staysQuiet_log, handshakeEvent_not_publish, He
    | intros e s _ He _; apply staysQuiet_log, He
    | intros u s; apply staysQuiet_log; reflexivity
    | intros d t s Hi _; apply staysQuiet_publish, Hi
    | intros s; apply staysQuiet_silent; [reflexivity|];
      cbn [initialized set_initialized serverDescription];
      intros [? | ?]; [discriminate | right; assumption]
    | intros; apply staysQuiet_silent; [reflexivity | tauto] ].

Lemma reconfigureCallback_staysQuiet fuel cfg :
  keeps (staysQuiet base) (reconfigureCallback env fuel cfg).
Proof. apply reconfigureCallback_keeps; quiet_steps. Qed.

Lemma run_staysQuiet fuel : keeps (staysQuiet base) (run env fuel).
Proof. apply run_keeps; quiet_steps. Qed.

(** The rest of a [spinOnce] and the [run] that goes on after it. *)
Lemma rest_of_run_staysQuiet rest fuel fuel' :
  keeps (staysQuiet base)
        (forEach rest (reconfigureCallback env fuel) ;; run env fuel').
Proof.
  apply keeps_bind; [apply staysQuiet_trans | | intros _; apply run_staysQuiet].
  apply forEach_keeps; [apply staysQuiet_refl | apply staysQuiet_trans|].
  intro cfg. apply reconfigureCallback_staysQuiet.
Qed.

End Quiet.

Section Reconfiguration.

Context {RigidBody : Type} (env : Environment RigidBody).

Local Notation "'Bridge'" := (Bridge RigidBody).

(** [initialize] on an enabled description when the server information is
    known by the time the loop is reached: one bind, one [ros::ok()], a new
    dispatcher. *)
Lemma initialize_immediate fuel (s : Bridge) :
  enableOptitrack (serverDescription s) = true ->
  let descr := serverDescription s in
  let model := seedModel (version descr) (dataModel s) in
  hasServerInfo model = true ->
  initialize env (S (S fuel)) s =
  Done tt
    (mkBridge descr model
       (Some (mkSocket (count isBind (log s)) (dataPort descr)
                       (multicastIpAddress descr)))
       (Some (mkDispatcher (count isCreateDispatcher (log s))
                           (getNatNetVersion model)))
       true
       (EvInfo "Initialization complete"
        :: destroying (publishDispatcherPtr s)
        ++ EvCreateDispatcher (count isCreateDispatcher (log s))
                              (getNatNetVersion model)
        :: EvOk (ros_ok env (count isOk (log s)))
        :: seedEvents (version descr)
        ++ closing (multicastClientSocketPtr s)
        ++ EvBind (count isBind (log s)) (dataPort descr)
                  (multicastIpAddress descr)
        :: log s)).
Proof.
  intros Hen descr model Hknown.
  rewrite (initialize_enabled env (S fuel) s Hen). fold descr.
  subst model. unfold bind at 1.
  destruct (version descr) as [|v0 vs] eqn:Ev;
    (rewrite handshakeLoop_known by exact Hknown);
    rewrite initialize_tail; cbn;
    destruct (multicastClientSocketPtr s), (publishDispatcherPtr s); reflexivity.
Qed.

(** [reconfigureCallback] up to its [initialize]. *)
Lemma reconfigureCallback_eq fuel cfg (s : Bridge) :
  reconfigureCallback env fuel cfg s =
  initialize env fuel
    (set_serverDescription (applyConfig cfg (serverDescription s))
                           (logged (EvCallback cfg) s)).
Proof. reflexivity. Qed.

(** An enabling callback on a node whose server information is known. *)
Lemma reconfigureCallback_enabling fuel cfg (s : Bridge) :
  enable_optitrack cfg = true ->
  let v := version (serverDescription s) in
  let model := seedModel v (dataModel s) in
  hasServerInfo model = true ->
  reconfigureCallback env (S (S fuel)) cfg s =
  Done tt
    (mkBridge (applyConfig cfg (serverDescription s)) model
       (Some (mkSocket (count isBind (log s)) (data_port cfg)
                       (multicast_address cfg)))
       (Some (mkDispatcher (count isCreateDispatcher (log s))
                           (getNatNetVersion model)))
       true
       (EvInfo "Initialization complete"
        :: destroying (publishDispatcherPtr s)
        ++ EvCreateDispatcher (count isCreateDispatcher (log s))
                              (getNatNetVersion model)
        :: EvOk (ros_ok env (count isOk (log s)))
        :: seedEvents v
        ++ closing (multicastClientSocketPtr s)
        ++ EvBind (count isBind (log s)) (data_port cfg) (multicast_address cfg)
        :: EvCallback cfg :: log s)).
Proof.
  intros Hen v model Hknown. rewrite reconfigureCallback_eq.
  rewrite initialize_immediate; [reflexivity | exact Hen | exact Hknown].
Qed.

(** A disabling callback. *)
Lemma reconfigureCallback_disabling fuel cfg (s : Bridge) :
  enable_optitrack cfg = false ->
  reconfigureCallback env (S fuel) cfg s =
  Done tt
    (mkBridge (applyConfig cfg (serverDescription s)) (dataModel s)
       (multicastClientSocketPtr s) (publishDispatcherPtr s) false
       (EvInfo "Initialization incomplete" :: EvCallback cfg :: log s)).
Proof.
  intro Hen. rewrite reconfigureCallback_eq.
  rewrite initialize_disabled by exact Hen. reflexivity.
Qed.

End Reconfiguration.

Section ReconfigurationClaims.

Context {RigidBody : Type} (env : Environment RigidBody).

Local Notation "'Bridge'" := (Bridge RigidBody).

(** C2, amended.  When [reconfigureCallback] delivers an enabled
    description to a streaming node, the new socket is bound first and the
    socket of the previous description is closed right after it, so that
    both are open in between; nothing is published during the callback; the
    data model is kept, and the dispatcher that serves the new description
    is built from the version the kept data model holds. *)
Theorem reconfigure_binds_then_closes fuel cfg (s : Bridge) old :
  enable_optitrack cfg = true ->
  multicastClientSocketPtr s = Some old ->
  hasServerInfo (seedModel (version (serverDescription s)) (dataModel s)) = true ->
  let fresh := mkSocket (count isBind (log s)) (data_port cfg)
                        (multicast_address cfg) in
  let bind := EvBind (socketId fresh) (data_port cfg) (multicast_address cfg) in
  let model := seedModel (version (serverDescription s)) (dataModel s) in
  exists s' after,
    reconfigureCallback env (S (S fuel)) cfg s = Done tt s' /\
    log s' = after ++ EvClose (socketId old) :: bind :: EvCallback cfg :: log s /\
    publishCount after = 0%nat /\
    openSockets (bind :: EvCallback cfg :: log s)
    = socketId fresh :: openSockets (log s) /\
    (In (socketId old) (openSockets (log s)) ->
     In (socketId old) (openSockets (bind :: EvCallback cfg :: log s)) /\
     In (socketId fresh) (openSockets (bind :: EvCallback cfg :: log s))) /\
    multicastClientSocketPtr s' = Some fresh /\
    dataModel s' = model /\
    publishDispatcherPtr s' =
      Some (mkDispatcher (count isCreateDispatcher (log s))
                         (getNatNetVersion model)).
Proof.
  intros Hen Hold Hknown fresh bind model.
  rewrite (reconfigureCallback_enabling env fuel cfg s Hen Hknown).
  rewrite Hold. fold model.
  exists (mkBridge (applyConfig cfg (serverDescription s)) model
            (Some fresh)
            (Some (mkDispatcher (count isCreateDispatcher (log s))
                                (getNatNetVersion model)))
            true
            (EvInfo "Initialization complete"
             :: destroying (publishDispatcherPtr s)
             ++ EvCreateDispatcher (count isCreateDispatcher (log s))
                                   (getNatNetVersion model)
             :: EvOk (ros_ok env (count isOk (log s)))
             :: seedEvents (version (serverDescription s))
             ++ closing (Some old)
             ++ EvBind (count isBind (log s)) (data_port cfg)
                       (multicast_address cfg)
             :: EvCallback cfg :: log s)),
         (EvInfo "Initialization complete"
             :: destroying (publishDispatcherPtr s)
             ++ EvCreateDispatcher (count isCreateDispatcher (log s))
                                   (getNatNetVersion model)
             :: EvOk (ros_ok env (count isOk (log s)))
             :: seedEvents (version (serverDescription s))).
  split; [reflexivity|]. split.
  - cbn [log closing app]. f_equal. rewrite <- app_assoc. reflexivity.
  - split; [|repeat split].
    + destruct (publishDispatcherPtr s), (version (serverDescription s));
        reflexivity.
    + cbn [openSockets]. right. assumption.
    + cbn [openSockets]. left. reflexivity.
Qed.

(** C3, amended.  [reconfigureCallback] discards neither the server
    information nor, on a disabling callback, anything else.  On a streaming
    node an enabling callback sends no connection request and receives
    nothing; the data model it leaves is the one it found, with the hint
    applied if there is one, so that without a hint the server information
    of the previous description is carried over; the publish dispatcher is
    replaced by one built from that version.  A disabling callback leaves
    data model, socket and dispatcher as they are. *)
Theorem reconfigure_keeps_server_info fuel cfg (s : Bridge) :
  hasServerInfo (dataModel s) = true ->
  (enable_optitrack cfg = true ->
   exists s',
     reconfigureCallback env (S (S fuel)) cfg s = Done tt s' /\
     dataModel s' = seedModel (version (serverDescription s)) (dataModel s) /\
     (version (serverDescription s) = [] -> dataModel s' = dataModel s) /\
     count isSend (log s') = count isSend (log s) /\
     count isRecv (log s') = count isRecv (log s) /\
     publishDispatcherPtr s' =
       Some (mkDispatcher (count isCreateDispatcher (log s))
                          (getNatNetVersion (dataModel s'))) /\
     initialized s' = true) /\
  (enable_optitrack cfg = false ->
   exists s',
     reconfigureCallback env (S fuel) cfg s = Done tt s' /\
     dataModel s' = dataModel s /\
     multicastClientSocketPtr s' = multicastClientSocketPtr s /\
     publishDispatcherPtr s' = publishDispatcherPtr s /\
     initialized s' = false).
Proof.
  intro Hknown. split; intro Hen.
  - assert (Hseed : hasServerInfo (seedModel (version (serverDescription s))
                                             (dataModel s)) = true).
    { destruct (version (serverDescription s)); [exact Hknown | reflexivity]. }
    rewrite (reconfigureCallback_enabling env fuel cfg s Hen Hseed).
    eexists. split; [reflexivity|].
    cbn [dataModel publishDispatcherPtr initialized log].
    split; [reflexivity|]. split; [intro Hv; rewrite Hv; reflexivity|].
    repeat split;
      destruct (publishDispatcherPtr s), (multicastClientSocketPtr s),
               (version (serverDescription s)); reflexivity.
  - rewrite (reconfigureCallback_disabling env fuel cfg s Hen).
    eexists. repeat split; reflexivity.
Qed.

(** C6, amended.  A callback that delivers [enable_optitrack = false]
    closes nothing: the socket stays with the node and open, and so does the
    dispatcher; [initialized] becomes false; and in whatever follows, the
    callbacks still pending in the same [spinOnce] and the [run] that goes
    on after it, no frame is published before a callback that enables the
    node again has arrived. *)
Theorem reconfigure_disable_keeps_socket fuel fuel' rest cfg (s : Bridge) :
  enable_optitrack cfg = false ->
  exists s' new,
    reconfigureCallback env (S fuel) cfg s = Done tt s' /\
    initialized s' = false /\
    multicastClientSocketPtr s' = multicastClientSocketPtr s /\
    openSockets (log s') = openSockets (log s) /\
    log (stateOf ((forEach rest (reconfigureCallback env fuel') ;;
                   run env fuel') s')) = new ++ log s' /\
    quietUntilEnabled new = true.
Proof.
  intro Hen. rewrite (reconfigureCallback_disabling env fuel cfg s Hen).
  set (s' := mkBridge _ _ _ _ _ _).
  assert (Hq : quietSince (log s') s').
  { exists []. split; [reflexivity|]. split; [reflexivity|].
    subst s'. cbn [initialized serverDescription applyConfig enableOptitrack].
    rewrite Hen. intros [H | H]; discriminate. }
  destruct (rest_of_run_staysQuiet env (log s') rest fuel' fuel' s') as [_ Hrun].
  destruct (Hrun Hq) as [new [E [Q _]]].
  exists s', new. repeat split; try reflexivity; assumption.
Qed.

End ReconfigurationClaims.

(** C2 as the spec has it fails: in a session in which an enabled
    description arrives while the node streams, socket 1 is bound while
    socket 0 is still open, and socket 0 is closed only afterwards. *)
Lemma reconfigure_opens_second_socket :
  exists s' after before,
    node_main (Demo.session [Demo.moveTo true]) 20 Demo.start = Done tt s' /\
    log s' = after ++ EvClose 0 :: EvBind 1 1610 "239.255.42.100" :: before /\
    openSockets before = [0%nat] /\
    openSockets (EvBind 1 1610 "239.255.42.100" :: before) = [1%nat; 0%nat].
Proof.
  eexists _, _, _. split; [vm_compute; reflexivity|]. split.
  - etransitivity; [symmetry; apply (firstn_skipn 13)|].
    f_equal; vm_compute; reflexivity.
  - split; vm_compute; reflexivity.
Qed.

Lemma reconfigure_binds_then_closes_witness :
  enable_optitrack (Demo.moveTo true) = true /\
  multicastClientSocketPtr Demo.streaming
  = Some (mkSocket 0 1510 "239.255.42.99") /\
  hasServerInfo (seedModel (version (serverDescription Demo.streaming))
                           (dataModel Demo.streaming)) = true /\
  exists s' after,
    reconfigureCallback (Demo.session []) 2 (Demo.moveTo true) Demo.streaming
    = Done tt s' /\
    log s' = after ++ EvClose 0 :: EvBind 1 1610 "239.255.42.100"
                   :: EvCallback (Demo.moveTo true) :: log Demo.streaming /\
    publishCount after = 0%nat /\
    openSockets (EvBind 1 1610 "239.255.42.100"
                 :: EvCallback (Demo.moveTo true) :: log Demo.streaming)
    = 1%nat :: openSockets (log Demo.streaming) /\
    (In 0%nat (openSockets (log Demo.streaming)) ->
     In 0%nat (openSockets (EvBind 1 1610 "239.255.42.100"
                            :: EvCallback (Demo.moveTo true)
                            :: log Demo.streaming)) /\
     In 1%nat (openSockets (EvBind 1 1610 "239.255.42.100"
                            :: EvCallback (Demo.moveTo true)
                            :: log Demo.streaming))) /\
    multicastClientSocketPtr s' = Some (mkSocket 1 1610 "239.255.42.100") /\
    dataModel s' = dataModel Demo.streaming /\
    publishDispatcherPtr s' = Some (mkDispatcher 1 (Some [3; 0; 0; 0])).
Proof.
  split; [reflexivity|]. split; [reflexivity|]. split; [reflexivity|].
  exact (reconfigure_binds_then_closes
           (Demo.session []) 0 (Demo.moveTo true) Demo.streaming
           (mkSocket 0 1510 "239.255.42.99") eq_refl eq_refl eq_refl).
Defined.

(** C3 as the spec has it fails: after the enabled description arrived no
    connection request is sent and no server information is decoded, yet
    the node publishes through a dispatcher built from the version the
    server reported under the previous description. *)
Lemma reconfigure_carries_server_info_over :
  exists s' after before,
    node_main (Demo.session [Demo.moveTo true]) 20 Demo.start = Done tt s' /\
    log s' = after ++ EvCallback (Demo.moveTo true) :: before /\
    version (serverDescription s') = [] /\
    count isSend after = 0%nat /\
    In (EvDecode Demo.serverInfoBytes) before /\
    ~ In (EvDecode Demo.serverInfoBytes) after /\
    In (EvCreateDispatcher 1 (Some [3; 0; 0; 0])) after /\
    In (EvPublish 1 1 []) after.
Proof.
  eexists _, _, _. split; [vm_compute; reflexivity|]. split.
  - etransitivity; [symmetry; apply (firstn_skipn 15)|].
    f_equal; vm_compute; reflexivity.
  - split; [reflexivity|]. split; [reflexivity|]. split.
    + simpl. intuition.
    + split; [|split]; simpl; intuition; discriminate.
Qed.

Lemma reconfigure_keeps_server_info_witness :
  hasServerInfo (dataModel Demo.streaming) = true /\
  enable_optitrack (Demo.moveTo true) = true /\
  enable_optitrack (Demo.moveTo false) = false /\
  (exists s',
     reconfigureCallback (Demo.session []) 2 (Demo.moveTo true) Demo.streaming
     = Done tt s' /\
     dataModel s' = seedModel (version (serverDescription Demo.streaming))
                              (dataModel Demo.streaming) /\
     (version (serverDescription Demo.streaming) = [] ->
      dataModel s' = dataModel Demo.streaming) /\
     count isSend (log s') = count isSend (log Demo.streaming) /\
     count isRecv (log s') = count isRecv (log Demo.streaming) /\
     publishDispatcherPtr s' =
       Some (mkDispatcher (count isCreateDispatcher (log Demo.streaming))
                          (getNatNetVersion (dataModel s'))) /\
     initialized s' = true) /\
  (exists s',
     reconfigureCallback (Demo.session []) 1 (Demo.moveTo false) Demo.streaming
     = Done tt s' /\
     dataModel s' = dataModel Demo.streaming /\
     multicastClientSocketPtr s' = multicastClientSocketPtr Demo.streaming /\
     publishDispatcherPtr s' = publishDispatcherPtr Demo.streaming /\
     initialized s' = false).
Proof.
  split; [reflexivity|]. split; [reflexivity|]. split; [reflexivity|]. split.
  - exact (proj1 (reconfigure_keeps_server_info
                    (Demo.session []) 0 (Demo.moveTo true) Demo.streaming
                    eq_refl) eq_refl).
  - exact (proj2 (reconfigure_keeps_server_info
                    (Demo.session []) 0 (Demo.moveTo false) Demo.streaming
                    eq_refl) eq_refl).
Defined.

(** C6 as the spec has it fails: the description is disabled while the
    node streams, and when the node is shut down two rounds later its
    socket is still held and still open. *)
Lemma reconfigure_disable_leaves_socket_open :
  exists s' after before,
    node_main (Demo.session [Demo.moveTo false]) 20 Demo.start = Done tt s' /\
    log s' = after ++ EvCallback (Demo.moveTo false) :: before /\
    initialized s' = false /\
    multicastClientSocketPtr s' = Some (mkSocket 0 1510 "239.255.42.99") /\
    openSockets before = [0%nat] /\
    openSockets (log s') = [0%nat].
Proof.
  eexists _, _, _. split; [vm_compute; reflexivity|]. split.
  - etransitivity; [symmetry; apply (firstn_skipn 8)|].
    f_equal; vm_compute; reflexivity.
  - repeat split; vm_compute; reflexivity.
Qed.

Lemma reconfigure_disable_keeps_socket_witness :
  enable_optitrack (Demo.moveTo false) = false /\
  exists s' new,
    reconfigureCallback (Demo.session []) 1 (Demo.moveTo false) Demo.ready
    = Done tt s' /\
    initialized s' = false /\
    multicastClientSocketPtr s' = multicastClientSocketPtr Demo.ready /\
    openSockets (log s') = openSockets (log Demo.ready) /\
    log (stateOf ((forEach [Demo.moveTo false; Demo.moveTo true]
                     (reconfigureCallback (Demo.session []) 5) ;;
                   run (Demo.session []) 5) s')) = new ++ log s' /\
    quietUntilEnabled new = true.
Proof.
  split; [reflexivity|].
  exact (reconfigure_disable_keeps_socket
           (Demo.session []) 0 5 [Demo.moveTo false; Demo.moveTo true]
           (Demo.moveTo false) Demo.ready eq_refl).
Defined.

Section Streaming.

Context {RigidBody : Type} (env : Environment RigidBody).

Local Notation "'Bridge'" := (Bridge RigidBody).

(** C4, amended.  In an iteration of the loop of [run] an initialized node
    publishes exactly when [recv] yielded a positive number of bytes,
    whatever the codec made of them: it publishes the rigid bodies the data
    model holds after the codec ran, be they none, and clears them.  When
    nothing was received the data model is not touched, and a node that is
    not initialized only sleeps. *)
Theorem publish_iff_bytes_received (s : Bridge) :
  (initialized s = false ->
   pollAndPublish env s = Done tt (logged (EvDurationSleep 1) s)) /\
  (initialized s = true ->
   forall sock disp,
     multicastClientSocketPtr s = Some sock ->
     publishDispatcherPtr s = Some disp ->
     let d := socket_recv env (count isRecv (log s)) in
     let model := MessageDispatcher_dispatch env (messageOf d) (dataModel s) in
     exists s',
       pollAndPublish env s = Done tt s' /\
       publishCount (log s') =
         (if 0 <? numBytesReceived d then S (publishCount (log s))
          else publishCount (log s)) /\
       (0 < numBytesReceived d ->
        In (EvPublish (dispatcherId disp)
                      (ros_time_now env (count isTimeNow (log s)))
                      (rigidBodies model)) (log s') /\
        dataModel s' = clear model) /\
       (numBytesReceived d <= 0 -> dataModel s' = dataModel s)).
Proof.
  split; intro Hinit.
  - unfold pollAndPublish. rewrite Hinit. reflexivity.
  - intros sock disp Hsock Hdisp d model.
    unfold pollAndPublish. rewrite Hinit. unfold bind at 1.
    rewrite (updateDataModelFromServer_eq env s sock Hsock). fold d.
    destruct (0 <? numBytesReceived d) eqn:Hn.
    + unfold bind, timeNow, publish, emit, modify.
      cbn [publishDispatcherPtr set_dataModel logged]. rewrite Hdisp.
      eexists. split; [reflexivity|]. split; [reflexivity|]. split.
      * intros _. split; [|reflexivity].
        cbn [log logged]. right. right. left. reflexivity.
      * intro Hle. apply Z.ltb_lt in Hn. lia.
    + unfold bind, ret, emit, modify.
      eexists. split; [reflexivity|]. split; [reflexivity|]. split.
      * intro Hlt. apply Z.ltb_ge in Hn. lia.
      * intros _. reflexivity.
Qed.

End Streaming.

(** C4 as the spec has it fails: the second datagram of the stream is one
    the codec does not recognise, it leaves the data model as it was, and
    the node publishes all the same. *)
Lemma publish_without_data_frame :
  Demo.deserialize Demo.garbage = Demo.Unrecognized /\
  (forall dm, Demo.decodeInto Demo.garbage dm = dm) /\
  exists s' after before,
    node_main (Demo.session []) 20 Demo.start = Done tt s' /\
    log s' = after ++ EvPublish 0 1 [] :: EvTimeNow 1
                   :: EvDecode Demo.garbage :: EvRecv 0 2 :: before.
Proof.
  split; [reflexivity|]. split; [reflexivity|].
  eexists _, _, _. split; [vm_compute; reflexivity|].
  etransitivity; [symmetry; apply (firstn_skipn 12)|].
  f_equal; vm_compute; reflexivity.
Qed.

Lemma publish_iff_bytes_received_witness :
  initialized Demo.ready = true /\
  multicastClientSocketPtr Demo.ready
  = Some (mkSocket 0 1510 "239.255.42.99") /\
  publishDispatcherPtr Demo.ready
  = Some (mkDispatcher 0 (Some [3; 0; 0; 0])) /\
  exists s',
    pollAndPublish (Demo.session []) Demo.ready = Done tt s' /\
    publishCount (log s') = 1%nat /\
    (0 < 3 ->
     In (EvPublish 0 0 [1; 2]) (log s') /\
     dataModel s' = clear (Demo.decodeInto Demo.twoBodies
                                           (dataModel Demo.ready))) /\
    (3 <= 0 -> dataModel s' = dataModel Demo.ready).
Proof.
  split; [reflexivity|]. split; [reflexivity|]. split; [reflexivity|].
  exact (proj2 (publish_iff_bytes_received (Demo.session []) Demo.ready)
               eq_refl (mkSocket 0 1510 "239.255.42.99")
               (mkDispatcher 0 (Some [3; 0; 0; 0])) eq_refl eq_refl).
Defined.

(** ** From one stopping point to the next

    The node stops, for lack of fuel, at the head of a loop or at the entry
    of [initialize].  Between two such points it runs a block whose effect
    is known in full: the lines before the handshake loop, one round of the
    loop, the lines after it, one round of [run].  An assertion kept by each
    block, with what is known where the block starts, holds wherever the
    node finishes or stops, and a node that holds its pointers where it
    needs them never finds one empty. *)

Section Blocks.

Context {RigidBody : Type} (env : Environment RigidBody).

Local Notation "'Bridge'" := (Bridge RigidBody).

Lemma initialize_enters fuel (s : Bridge) :
  enableOptitrack (serverDescription s) = true ->
  initialize env (S fuel) s =
  (handshakeLoop env
     (spinOnce env (reconfigureCallbackWith (initialize env fuel))) fuel ;;
   resetDispatcher ;;
   emit (EvInfo "Initialization complete") ;;
   modify (set_initialized true)) (enterHandshake s).
Proof.
  intro Hen. rewrite (initialize_enabled env fuel s Hen). f_equal.
  unfold enterHandshake.
  destruct (version (serverDescription s)), (multicastClientSocketPtr s);
    reflexivity.
Qed.

Lemma initialize_leaves (s : Bridge) :
  (resetDispatcher ;;
   emit (EvInfo "Initialization complete") ;;
   modify (set_initialized true)) s = Done tt (leaveHandshake s).
Proof.
  rewrite initialize_tail. unfold leaveHandshake.
  destruct (publishDispatcherPtr s); reflexivity.
Qed.

(** One round of [run] on a node that holds what it needs. *)
Lemma pollAndPublish_eq (s : Bridge) sock disp :
  initialized s = true ->
  multicastClientSocketPtr s = Some sock ->
  publishDispatcherPtr s = Some disp ->
  let d := socket_recv env (count isRecv (log s)) in
  let t := ros_time_now env (count isTimeNow (log s)) in
  let model := MessageDispatcher_dispatch env (messageOf d) (dataModel s) in
  pollAndPublish env s =
  Done tt
    (if 0 <? numBytesReceived d then
       mkBridge (serverDescription s) (clear model) (Some sock) (Some disp) true
         (EvUsleep 100 :: EvClear
          :: EvPublish (dispatcherId disp) t (rigidBodies model)
          :: EvTimeNow t :: EvDecode (messageOf d)
          :: EvRecv (socketId sock) (numBytesReceived d) :: log s)
     else
       mkBridge (serverDescription s) (dataModel s) (Some sock) (Some disp) true
         (EvUsleep 100 :: EvRecv (socketId sock) (numBytesReceived d) :: log s)).
Proof.
  intros Hinit Hsock Hdisp d t model.
  unfold pollAndPublish. rewrite Hinit. unfold bind at 1.
  rewrite (updateDataModelFromServer_eq env s sock Hsock). fold d.
  destruct (0 <? numBytesReceived d).
  - unfold bind, timeNow, publish, emit, modify.
    cbn [publishDispatcherPtr set_dataModel logged]. rewrite Hdisp.
    unfold set_dataModel, logged. cbn [serverDescription dataModel
      multicastClientSocketPtr publishDispatcherPtr initialized log].
    rewrite Hinit, Hsock, Hdisp. reflexivity.
  - unfold bind, ret, emit, modify, logged.
    cbn [serverDescription dataModel multicastClientSocketPtr
         publishDispatcherPtr initialized log].
    rewrite Hinit, Hsock, Hdisp. reflexivity.
Qed.

Lemma pollAndPublish_idle (s : Bridge) :
  initialized s = false ->
  pollAndPublish env s = Done tt (logged (EvDurationSleep 1) s).
Proof. intro Hinit. unfold pollAndPublish. rewrite Hinit. reflexivity. Qed.

Lemma pollAndPublish_done (s : Bridge) :
  nullSafe s -> exists s', pollAndPublish env s = Done tt s'.
Proof.
  intro Hsafe. destruct (initialized s) eqn:Hinit.
  - destruct (Hsafe Hinit) as [Hs Hd].
    destruct (multicastClientSocketPtr s) as [sock|] eqn:Es; [|contradiction].
    destruct (publishDispatcherPtr s) as [disp|] eqn:Ed; [|contradiction].
    rewrite (pollAndPublish_eq s sock disp Hinit Es Ed). eexists. reflexivity.
  - rewrite (pollAndPublish_idle s Hinit). eexists. reflexivity.
Qed.

Lemma requestAndPoll_done (s : Bridge) :
  holdsSocket s -> exists s', requestAndPoll env s = Done tt s'.
Proof.
  unfold holdsSocket. intro Hs.
  destruct (multicastClientSocketPtr s) as [sock|] eqn:Es; [|contradiction].
  rewrite (requestAndPoll_eq env s sock Es).
  destruct (0 <? _); eexists; reflexivity.
Qed.

Variables Ent Hand Inv : Bridge -> Prop.

Hypothesis Hand_socket : forall s, Hand s -> holdsSocket s.
Hypothesis Hand_Ent : forall s, Hand s -> Ent s.
Hypothesis Inv_Ent : forall s, Inv s -> Ent s.
Hypothesis Inv_safe : forall s, Inv s -> nullSafe s.
Hypothesis Inv_Hand : forall s, Inv s -> holdsSocket s -> Hand s.
Hypothesis B_enter : forall s,
  Ent s -> enableOptitrack (serverDescription s) = true ->
  Hand (enterHandshake s).
Hypothesis B_disabled : forall s,
  Ent s -> enableOptitrack (serverDescription s) = false ->
  Inv (set_initialized false (logged (EvInfo "Initialization incomplete") s)).
Hypothesis B_ok_hand : forall s,
  Hand s -> Hand (logged (EvOk (ros_ok env (count isOk (log s)))) s).
Hypothesis B_request : forall s s',
  Hand s -> headIs isOkTrue (log s) = true ->
  hasServerInfo (dataModel s) = false ->
  requestAndPoll env s = Done tt s' -> Hand s'.
Hypothesis B_spin_hand : forall s, Hand s -> Hand (logged EvSpinOnce s).
Hypothesis B_callback : forall cfg s, Ent s -> Ent (callbackEntry cfg s).
Hypothesis B_leave : forall s,
  Hand s -> headIs isOk (log s) = true -> Inv (leaveHandshake s).
Hypothesis B_ok_run : forall s,
  Inv s -> Inv (logged (EvOk (ros_ok env (count isOk (log s)))) s).
Hypothesis B_poll : forall s s',
  Inv s -> headIs isOkTrue (log s) = true ->
  pollAndPublish env s = Done tt s' -> Inv s'.
Hypothesis B_spin_run : forall s, Inv s -> Inv (logged EvSpinOnce s).

Local Notation "'callbackSound'" := (callbackKeeps Ent Inv).

Lemma forEach_sound (P : Bridge -> Prop) cb l :
  (forall s, P s -> Ent s) ->
  (forall s s', P s -> Inv s' -> keepsSocket s s' -> P s') ->
  callbackSound cb ->
  forall s, P s ->
    outcomeIs (fun s' => P s' /\ keepsSocket s s')
              (fun s' => Ent s' /\ keepsSocket s s') (forEach l cb s).
Proof.
  intros HP Hback Hcb. induction l as [|cfg l IH]; intros s Hs; cbn [forEach].
  - split; [exact Hs | intro H; exact H].
  - unfold bind. pose proof (Hcb cfg s (HP s Hs)) as H1.
    destruct (cb cfg s) as [[] s1 | s1 | s1]; cbn [outcomeIs] in H1 |- *;
      try exact H1.
    destruct H1 as [Hi Hk].
    pose proof (IH s1 (Hback s s1 Hs Hi Hk)) as H2.
    destruct (forEach l cb s1) as [[] s2 | s2 | s2]; cbn [outcomeIs] in H2 |- *;
      try exact H2;
      (destruct H2 as [H2 Hk2]; split; [exact H2 | intro H; apply Hk2, Hk, H]).
Qed.

Lemma spinOnce_sound (P : Bridge -> Prop) cb :
  (forall s, P s -> Ent s) ->
  (forall s s', P s -> Inv s' -> keepsSocket s s' -> P s') ->
  (forall s, P s -> P (logged EvSpinOnce s)) ->
  callbackSound cb ->
  forall s, P s ->
    outcomeIs (fun s' => P s' /\ keepsSocket s s')
              (fun s' => Ent s' /\ keepsSocket s s') (spinOnce env cb s).
Proof.
  intros HP Hback Hspin Hcb s Hs. unfold spinOnce, bind, emit, modify.
  exact (forEach_sound P cb _ HP Hback Hcb (logged EvSpinOnce s) (Hspin s Hs)).
Qed.

Lemma handshakeLoop_sound cb fuel :
  callbackSound cb ->
  forall s, Hand s ->
    outcomeIs (fun s' => Hand s' /\ headIs isOk (log s') = true)
              (fun s' => Ent s' /\ holdsSocket s')
              (handshakeLoop env (spinOnce env cb) fuel s).
Proof.
  intro Hcb. induction fuel as [|fuel IH]; intros s Hs; cbn [handshakeLoop].
  - split; [apply Hand_Ent, Hs | apply Hand_socket, Hs].
  - unfold bind at 1. unfold rosOk at 1. unfold bind at 1.
    pose proof (B_ok_hand s Hs) as H1.
    set (s1 := logged _ s) in *.
    change (dataModel s1) with (dataModel s).
    destruct (ros_ok env (count isOk (log s))) eqn:Hok;
      [destruct (hasServerInfo (dataModel s)) eqn:Hknown|]; cbn [andb negb].
    + split; [exact H1 | reflexivity].
    + unfold bind at 1.
      destruct (requestAndPoll_done s1 (Hand_socket s1 H1)) as [s2 E2].
      rewrite E2.
      assert (H2 : Hand s2).
      { apply (B_request s1 s2 H1); [reflexivity | exact Hknown | exact E2]. }
      unfold bind at 1.
      pose proof (spinOnce_sound Hand cb Hand_Ent
                    (fun a b Ha Hb Hk => Inv_Hand b Hb (Hk (Hand_socket a Ha)))
                    B_spin_hand Hcb s2 H2) as H3.
      destruct (spinOnce env cb s2) as [[] s3 | s3 | s3];
        cbn [outcomeIs] in H3 |- *; try exact H3.
      * apply IH, H3.
      * destruct H3 as [H3 Hk]. split; [exact H3|].
        apply Hk, Hand_socket, H2.
    + split; [exact H1 | reflexivity].
Qed.

Lemma initialize_sound fuel (s : Bridge) :
  Ent s ->
  outcomeIs (fun s' => Inv s' /\ keepsSocket s s')
            (fun s' => Ent s' /\ keepsSocket s s') (initialize env fuel s).
Proof.
  revert s. induction fuel as [|fuel IH]; intros s Hs.
  - split; [exact Hs | intro H; exact H].
  - destruct (enableOptitrack (serverDescription s)) eqn:Hen.
    + rewrite (initialize_enters fuel s Hen). unfold bind at 1.
      assert (Hcb : callbackSound (reconfigureCallbackWith (initialize env fuel))).
      { intros cfg s0 H0. exact (IH (callbackEntry cfg s0) (B_callback cfg s0 H0)). }
      pose proof (handshakeLoop_sound _ fuel Hcb (enterHandshake s)
                    (B_enter s Hs Hen)) as H1.
      destruct (handshakeLoop env _ fuel (enterHandshake s)) as [[] s1 | s1 | s1];
        cbn [outcomeIs] in H1 |- *; try exact H1.
      * destruct H1 as [H1 Hhead]. rewrite initialize_leaves. cbn [outcomeIs].
        split; [exact (B_leave s1 H1 Hhead)|]. intros _.
        exact (Hand_socket s1 H1).
      * destruct H1 as [H1 Hk]. split; [exact H1 | intros _; exact Hk].
    + rewrite (initialize_disabled env fuel s Hen). cbn [outcomeIs].
      split; [exact (B_disabled s Hs Hen) | intro H; exact H].
Qed.

Lemma reconfigureCallback_sound fuel :
  callbackSound (reconfigureCallback env fuel).
Proof.
  intros cfg s Hs.
  exact (initialize_sound fuel (callbackEntry cfg s) (B_callback cfg s Hs)).
Qed.

Lemma run_sound fuel (s : Bridge) :
  Inv s -> outcomeIs Inv Ent (run env fuel s).
Proof.
  revert s. induction fuel as [|fuel IH]; intros s Hs; cbn [run].
  - apply Inv_Ent, Hs.
  - unfold bind at 1. unfold rosOk at 1.
    pose proof (B_ok_run s Hs) as H1.
    set (s1 := logged _ s) in *.
    destruct (ros_ok env (count isOk (log s))) eqn:Hok; [|exact H1].
    unfold bind at 1.
    destruct (pollAndPublish_done s1 (Inv_safe s1 H1)) as [s2 E2]. rewrite E2.
    assert (H2 : Inv s2) by (apply (B_poll s1 s2 H1); [reflexivity | exact E2]).
    unfold bind at 1.
    pose proof (spinOnce_sound Inv (reconfigureCallback env fuel) Inv_Ent
                  (fun a b _ Hb _ => Hb) B_spin_run
                  (reconfigureCallback_sound fuel) s2 H2) as H3.
    destruct (spinOnce env _ s2) as [[] s3 | s3 | s3];
      cbn [outcomeIs] in H3 |- *; try exact H3.
    + apply IH, H3.
    + apply H3.
Qed.

Lemma node_main_sound fuel (s : Bridge) :
  Ent s -> outcomeIs Inv Ent (node_main env fuel s).
Proof.
  intro Hs. unfold node_main, bind.
  pose proof (initialize_sound fuel s Hs) as H1.
  destruct (initialize env fuel s) as [[] s1 | s1 | s1];
    cbn [outcomeIs] in H1 |- *; try apply H1.
  apply run_sound, H1.
Qed.

End Blocks.

(** ** The pointers are never empty where they are used *)

Section Pointers.

Context {RigidBody : Type} (env : Environment RigidBody).

Local Notation "'Bridge'" := (Bridge RigidBody).

(** What a round of either loop leaves alone. *)
Lemma requestAndPoll_frame (s s' : Bridge) :
  requestAndPoll env s = Done tt s' ->
  serverDescription s' = serverDescription s /\
  multicastClientSocketPtr s' = multicastClientSocketPtr s /\
  publishDispatcherPtr s' = publishDispatcherPtr s /\
  initialized s' = initialized s.
Proof.
  destruct (multicastClientSocketPtr s) as [sock|] eqn:Es.
  - rewrite (requestAndPoll_eq env s sock Es).
    destruct (0 <? _); intro H; inversion H; subst s'; cbn;
      rewrite Es; repeat split.
  - unfold requestAndPoll, bind, socketSend. rewrite Es. discriminate.
Qed.

Lemma pollAndPublish_frame (s s' : Bridge) :
  pollAndPublish env s = Done tt s' ->
  serverDescription s' = serverDescription s /\
  multicastClientSocketPtr s' = multicastClientSocketPtr s /\
  publishDispatcherPtr s' = publishDispatcherPtr s /\
  initialized s' = initialized s.
Proof.
  destruct (initialized s) eqn:Hinit.
  - destruct (multicastClientSocketPtr s) as [sock|] eqn:Es.
    + destruct (publishDispatcherPtr s) as [disp|] eqn:Ed.
      * rewrite (pollAndPublish_eq env s sock disp Hinit Es Ed).
        destruct (0 <? _); intro H; inversion H; subst s'; cbn; repeat split.
      * unfold pollAndPublish. rewrite Hinit. unfold bind at 1.
        rewrite (updateDataModelFromServer_eq env s sock Es).
        destruct (0 <? _).
        -- unfold bind, timeNow, publish.
           cbn [publishDispatcherPtr set_dataModel logged]. rewrite Ed.
           discriminate.
        -- unfold bind, ret, emit, modify. intro H. inversion H; subst s'.
           cbn. rewrite Es, Ed, Hinit. repeat split.
    + unfold pollAndPublish. rewrite Hinit.
      unfold updateDataModelFromServer, socketRecv, bind. rewrite Es.
      discriminate.
  - rewrite (pollAndPublish_idle env s Hinit). intro H. inversion H; subst s'.
    cbn. rewrite Hinit. repeat split.
Qed.

Lemma node_pointers_sound fuel (s : Bridge) :
  outcomeIs (fun s' => nullSafe s' /\ keepsSocket s s')
            (fun s' => True /\ keepsSocket s s') (initialize env fuel s) /\
  (nullSafe s -> outcomeIs nullSafe (fun _ => True) (run env fuel s)) /\
  outcomeIs nullSafe (fun _ => True) (node_main env fuel s).
Proof.
  assert (Hreq : forall a b : Bridge,
             holdsSocket a -> headIs isOkTrue (log a) = true ->
             hasServerInfo (dataModel a) = false ->
             requestAndPoll env a = Done tt b -> holdsSocket b).
  { intros a b Ha _ _ E. destruct (requestAndPoll_frame a b E) as [_ [Es _]].
    unfold holdsSocket. rewrite Es. exact Ha. }
  assert (Hpoll : forall a b : Bridge,
             nullSafe a -> headIs isOkTrue (log a) = true ->
             pollAndPublish env a = Done tt b -> nullSafe b).
  { intros a b Ha _ E.
    destruct (pollAndPublish_frame a b E) as [_ [Es [Ed Ei]]].
    unfold nullSafe. rewrite Es, Ed, Ei. exact Ha. }
  assert (Hleave : forall a : Bridge,
             holdsSocket a -> headIs isOk (log a) = true ->
             nullSafe (leaveHandshake a)).
  { intros a Ha _ _. split; [exact Ha | discriminate]. }
  split; [|split].
  - apply (initialize_sound env (fun _ => True) holdsSocket nullSafe);
      auto; try (intros; exact I); try (intros a _ _; discriminate).
  - intro Hs.
    apply (run_sound env (fun _ => True) holdsSocket nullSafe);
      auto; try (intros; exact I); try (intros a _ _; discriminate).
  - apply (node_main_sound env (fun _ => True) holdsSocket nullSafe);
      auto; try (intros; exact I); try (intros a _ _; discriminate).
Qed.

End Pointers.

(** ** The order of the calls, and what is open *)

Section Order.

Context {RigidBody : Type} (env : Environment RigidBody).

Local Notation "'Bridge'" := (Bridge RigidBody).

Lemma comesBefore_atRest (e : Event RigidBody) l :
  atRest l = true -> comesBefore e l = true.
Proof. destruct l as [|[] l]; simpl; intro H; try reflexivity; discriminate. Qed.

Lemma messageOf_length d :
  0 < numBytesReceived d ->
  (Z.of_nat (List.length (messageOf d)) <=? numBytesReceived d) = true.
Proof.
  intro Hd. apply Z.leb_le. unfold messageOf. rewrite length_firstn. lia.
Qed.

(** [orderly] looks at the log and at the two pointers only. *)
Lemma orderly_ext (s s' : Bridge) :
  log s' = log s ->
  multicastClientSocketPtr s' = multicastClientSocketPtr s ->
  publishDispatcherPtr s' = publishDispatcherPtr s ->
  orderly s -> orderly s'.
Proof.
  unfold orderly, accounted. intros El Es Ed. rewrite El, Es, Ed. tauto.
Qed.

Lemma orderly_neutral e (s : Bridge) :
  neutral e = true -> orderly s -> orderly (logged e s).
Proof.
  intros He [Hin [Hrest Hacc]]. unfold orderly, accounted in *.
  cbn [log logged multicastClientSocketPtr publishDispatcherPtr inOrder].
  rewrite Hin, (comesBefore_atRest e (log s) Hrest).
  destruct e; try discriminate; cbn; repeat split; try apply Hacc.
Qed.

Lemma fresh_filter k (j : nat) :
  (j < k)%nat ->
  filter (fun i => negb (Nat.eqb i j)) [k; j] = [k].
Proof.
  intro H. cbn. rewrite Nat.eqb_refl.
  destruct (Nat.eqb k j) eqn:E; [apply Nat.eqb_eq in E; lia | reflexivity].
Qed.

Lemma orderly_enter (s : Bridge) :
  orderly s -> orderly (enterHandshake s).
Proof.
  intros [Hin [Hrest [Hopen [Hlive [Hfs Hfd]]]]].
  assert (Hcb := fun e => comesBefore_atRest e (log s) Hrest).
  unfold orderly, accounted, enterHandshake.
  cbn [log multicastClientSocketPtr publishDispatcherPtr].
  destruct (multicastClientSocketPtr s) as [old|] eqn:Es;
    destruct (version (serverDescription s)) as [|v0 vs];
    cbn [seedEvents closing app inOrder comesAfter comesBefore atRest headIs
         isBind tl openSockets liveDispatchers heldSockets socketId existsb];
    rewrite ?Hin, ?Hcb, ?Hopen, ?Hlive; cbn [heldSockets existsb];
    rewrite ?Nat.eqb_refl;
    (split; [reflexivity|]); (split; [reflexivity|]);
    (split; [try reflexivity; apply fresh_filter, Hfs; reflexivity|]);
    (split; [reflexivity|]);
    (split; [intros sock E; inversion E; subst sock; cbn [socketId];
             rewrite !count_cons; cbn; lia
            |intros d E; rewrite !count_cons; cbn; apply Hfd, E]).
Qed.

Lemma orderly_leave (s : Bridge) :
  orderly s -> holdsSocket s -> holdsSocket (leaveHandshake s) /\ orderly (leaveHandshake s).
Proof.
  intros [Hin [Hrest [Hopen [Hlive [Hfs Hfd]]]]] Hs. split; [exact Hs|].
  assert (Hcb := fun e => comesBefore_atRest e (log s) Hrest).
  unfold orderly, accounted, leaveHandshake.
  cbn [log multicastClientSocketPtr publishDispatcherPtr].
  destruct (publishDispatcherPtr s) as [old|] eqn:Ed;
    cbn [destroying app inOrder comesAfter comesBefore atRest headIs
         isCreateDispatcher tl openSockets liveDispatchers heldDispatchers
         dispatcherId existsb];
    rewrite ?Hin, ?Hcb, ?Hopen, ?Hlive; cbn [heldDispatchers existsb];
    rewrite ?Nat.eqb_refl;
    (split; [reflexivity|]); (split; [reflexivity|]);
    (split; [reflexivity|]);
    (split; [try reflexivity; apply fresh_filter, Hfd; reflexivity|]);
    (split; [intros sock E; rewrite !count_cons; cbn; apply Hfs, E
            |intros d E; inversion E; subst d; cbn [dispatcherId];
             rewrite !count_cons; cbn; lia]).
Qed.

Lemma orderly_request (s s' : Bridge) :
  orderly s -> requestAndPoll env s = Done tt s' -> orderly s'.
Proof.
  intros [Hin [Hrest [Hopen [Hlive [Hfs Hfd]]]]] E.
  assert (Hcb := fun e => comesBefore_atRest e (log s) Hrest).
  destruct (multicastClientSocketPtr s) as [sock|] eqn:Es.
  - rewrite (requestAndPoll_eq env s sock Es) in E.
    cbn [heldSockets] in Hopen.
    destruct (0 <? numBytesReceived _) eqn:Hn; inversion E; subst s';
      unfold orderly, accounted;
      cbn [log logged set_dataModel multicastClientSocketPtr
           publishDispatcherPtr inOrder comesAfter comesBefore atRest
           isRecv openSockets liveDispatchers];
      rewrite ?Hin, ?Hcb, ?Hopen, ?Hlive, ?Es, ?Hn; cbn [existsb heldSockets];
      rewrite ?Nat.eqb_refl;
      try rewrite (messageOf_length _ (proj1 (Z.ltb_lt _ _) Hn));
      (split; [reflexivity|]); (split; [reflexivity|]);
      (split; [reflexivity|]); (split; [reflexivity|]);
      (split; [intros k Ek; rewrite !count_cons; cbn; apply Hfs;
               rewrite <- Ek; reflexivity
              |intros d Ek; rewrite !count_cons; cbn; apply Hfd, Ek]).
  - unfold requestAndPoll, bind, socketSend in E. rewrite Es in E. discriminate.
Qed.

Lemma orderly_recv (s : Bridge) sock n :
  orderly s -> multicastClientSocketPtr s = Some sock ->
  orderly (logged (EvRecv (socketId sock) n) s).
Proof.
  intros [Hin [Hrest [Hopen [Hlive [Hfs Hfd]]]]] Es.
  rewrite Es in Hopen. cbn [heldSockets] in Hopen.
  unfold orderly, accounted.
  cbn [log logged multicastClientSocketPtr publishDispatcherPtr inOrder
       comesAfter atRest openSockets liveDispatchers].
  rewrite Hin, (comesBefore_atRest _ (log s) Hrest), Hopen, Hlive, Es.
  cbn [existsb heldSockets]. rewrite Nat.eqb_refl.
  repeat split; try reflexivity.
  - intros k Ek. rewrite count_cons. cbn. apply Hfs. rewrite Es. exact Ek.
  - intros d Ek. rewrite count_cons. cbn. apply Hfd, Ek.
Qed.

Lemma orderly_poll (s s' : Bridge) :
  orderly s -> pollAndPublish env s = Done tt s' -> orderly s'.
Proof.
  intros Hord E. destruct (initialized s) eqn:Hinit.
  - destruct (multicastClientSocketPtr s) as [sock|] eqn:Es.
    + destruct (publishDispatcherPtr s) as [disp|] eqn:Ed.
      * destruct Hord as [Hin [Hrest [Hopen [Hlive [Hfs Hfd]]]]].
        assert (Hcb := fun e => comesBefore_atRest e (log s) Hrest).
        rewrite Es in Hopen. rewrite Ed in Hlive.
        cbn [heldSockets heldDispatchers] in Hopen, Hlive.
        rewrite (pollAndPublish_eq env s sock disp Hinit Es Ed) in E.
        destruct (0 <? numBytesReceived _) eqn:Hn; inversion E; subst s';
          unfold orderly, accounted;
          cbn [log multicastClientSocketPtr publishDispatcherPtr inOrder
               comesAfter comesBefore atRest headIs isRecv isDecode isPublish
               isClear openSockets liveDispatchers];
          rewrite ?Hin, ?Hcb, ?Hopen, ?Hlive, ?Hn, ?Z.eqb_refl;
          cbn [existsb heldSockets heldDispatchers];
          rewrite ?Nat.eqb_refl;
          try rewrite (messageOf_length _ (proj1 (Z.ltb_lt _ _) Hn));
          (split; [reflexivity|]); (split; [reflexivity|]);
          (split; [reflexivity|]); (split; [reflexivity|]);
          (split; [intros k Ek; rewrite !count_cons; cbn; apply Hfs;
                   rewrite Es, <- Ek; reflexivity
                  |intros d Ek; rewrite !count_cons; cbn; apply Hfd;
                   rewrite Ed, <- Ek; reflexivity]).
      * unfold pollAndPublish in E. rewrite Hinit in E.
        unfold bind at 1 in E.
        rewrite (updateDataModelFromServer_eq env s sock Es) in E.
        destruct (0 <? _).
        -- unfold bind, timeNow, publish in E.
           cbn [publishDispatcherPtr set_dataModel logged] in E.
           rewrite Ed in E. discriminate.
        -- unfold bind, ret, emit, modify in E. inversion E; subst s'.
           apply orderly_neutral; [reflexivity|].
           apply orderly_recv; assumption.
    + unfold pollAndPublish in E. rewrite Hinit in E.
      unfold updateDataModelFromServer, socketRecv, bind in E.
      rewrite Es in E. discriminate.
  - rewrite (pollAndPublish_idle env s Hinit) in E. inversion E; subst s'.
    apply orderly_neutral; [reflexivity | exact Hord].
Qed.

Lemma nullSafe_ext (s s' : Bridge) :
  multicastClientSocketPtr s' = multicastClientSocketPtr s ->
  publishDispatcherPtr s' = publishDispatcherPtr s ->
  initialized s' = initialized s ->
  nullSafe s -> nullSafe s'.
Proof. unfold nullSafe. intros Es Ed Ei. rewrite Es, Ed, Ei. tauto. Qed.

Ltac orderly_blocks :=
  first
    [ intros a [_ Hb]; exact Hb
    | intros a [Ha _]; exact Ha
    | intros a [Ha _] Hb; split; [exact Ha | exact Hb]
    | intros a Ha _; split; [apply orderly_enter, Ha | discriminate]
    | intros a Ha _; split;
      [ apply (orderly_neutral (EvInfo "Initialization incomplete") a eq_refl Ha)
      | intro Hc; discriminate ]
    | intros a [Ha Hb]; split;
      [apply orderly_neutral; [reflexivity | exact Ha] | exact Hb]
    | intros a b [Ha Hb] _ _ E; split;
      [ apply (orderly_request a b Ha E)
      | destruct (requestAndPoll_frame env a b E) as [_ [Es _]];
        unfold holdsSocket; rewrite Es; exact Hb ]
    | intros c0 a Ha; apply (orderly_neutral (EvCallback c0) a eq_refl Ha)
    | intros a [Ha Hb] _; destruct (orderly_leave a Ha Hb) as [Hs' H']; split;
      [ exact H' | intros _; split; [exact Hs' | discriminate] ]
    | intros a b [Ha Hb] _ E; split;
      [ apply (orderly_poll a b Ha E)
      | destruct (pollAndPublish_frame env a b E) as [_ [Es [Ed Ei]]];
        apply (nullSafe_ext a b Es Ed Ei Hb) ] ].

Lemma node_orderly fuel (s : Bridge) :
  orderly s ->
  outcomeIs (fun s' => orderly s' /\ nullSafe s') orderly (initialize env fuel s) /\
  outcomeIs (fun s' => orderly s' /\ nullSafe s') orderly (node_main env fuel s) /\
  (nullSafe s ->
   outcomeIs (fun s' => orderly s' /\ nullSafe s') orderly (run env fuel s)).
Proof.
  intro Hs. split; [|split].
  - pose proof (initialize_sound env orderly
                  (fun a => orderly a /\ holdsSocket a)
                  (fun a => orderly a /\ nullSafe a)) as H.
    assert (H' : outcomeIs
                   (fun s' => (orderly s' /\ nullSafe s') /\ keepsSocket s s')
                   (fun s' => orderly s' /\ keepsSocket s s')
                   (initialize env fuel s)).
    { apply H; try exact Hs; orderly_blocks. }
    destruct (initialize env fuel s); cbn [outcomeIs] in *; tauto.
  - apply (node_main_sound env orderly
             (fun a => orderly a /\ holdsSocket a)
             (fun a => orderly a /\ nullSafe a)); try exact Hs; orderly_blocks.
  - intro Hsafe.
    apply (run_sound env orderly
             (fun a => orderly a /\ holdsSocket a)
             (fun a => orderly a /\ nullSafe a));
      try (split; [exact Hs | exact Hsafe]); orderly_blocks.
Qed.

End Order.

(** ** Reading an orderly log *)

Section Reading.

Context {RigidBody : Type} (env : Environment RigidBody).

Local Notation "'Bridge'" := (Bridge RigidBody).

Lemma inOrder_tail (after l : list (Event RigidBody)) :
  inOrder (after ++ l) = true -> inOrder l = true.
Proof.
  induction after as [|e after IH]; cbn [app inOrder]; intro H; [exact H|].
  apply andb_true_iff in H. apply IH, H.
Qed.

Lemma inOrder_at (after : list (Event RigidBody)) e before :
  inOrder (after ++ e :: before) = true ->
  comesAfter e before = true /\ comesBefore e before = true.
Proof.
  intro H. apply inOrder_tail in H. cbn [inOrder] in H.
  apply andb_true_iff in H. destruct H as [H _].
  apply andb_true_iff in H. exact H.
Qed.

Lemma existsb_eqb_In k (l : list nat) :
  existsb (Nat.eqb k) l = true -> In k l.
Proof.
  intro H. apply existsb_exists in H. destruct H as [j [Hj E]].
  apply Nat.eqb_eq in E. subst j. exact Hj.
Qed.

(** Wherever [main] finishes or stops, the log is orderly. *)
Lemma node_main_orderly fuel (s : Bridge) :
  orderly s -> orderly (stateOf (node_main env fuel s)).
Proof.
  intro Hs. destruct (node_orderly env fuel s Hs) as [_ [H _]].
  destruct (node_main env fuel s); cbn [outcomeIs stateOf] in *; tauto.
Qed.

Lemma run_orderly fuel (s : Bridge) :
  orderly s -> nullSafe s -> orderly (stateOf (run env fuel s)).
Proof.
  intros Hs Hn. destruct (node_orderly env fuel s Hs) as [_ [_ H]].
  specialize (H Hn).
  destruct (run env fuel s); cbn [outcomeIs stateOf] in *; tauto.
Qed.

(** In an orderly log there are no more publishes than times read, no more
    times read than buffers decoded, and no more buffers decoded than
    receives that yielded bytes. *)
Lemma inOrder_counts (l : list (Event RigidBody)) :
  inOrder l = true ->
  (count isPublish l <= count isTimeNow l)%nat /\
  (count isTimeNow l <= count isDecode l)%nat /\
  (count isDecode l <= count isRecvBytes l)%nat /\
  (headIs isTimeNow l = true -> (count isPublish l < count isTimeNow l)%nat) /\
  (headIs isDecode l = true -> (count isTimeNow l < count isDecode l)%nat) /\
  (headIs isRecvBytes l = true ->
   (count isDecode l < count isRecvBytes l)%nat).
Proof.
  induction l as [|e l IH]; intro H.
  - cbn. repeat split; try lia; intro Hc; discriminate.
  - cbn [inOrder] in H. apply andb_true_iff in H. destruct H as [H Hl].
    apply andb_true_iff in H. destruct H as [Ha _].
    destruct (IH Hl) as [H1 [H2 [H3 [H4 [H5 H6]]]]].
    rewrite !count_cons.
    destruct e; cbn [isPublish isTimeNow isDecode isRecvBytes headIs];
      cbn [comesAfter] in Ha;
      try (repeat split; try lia; intro Hc; discriminate).
    + (* EvRecv *)
      destruct (0 <? numBytes) eqn:Hn; repeat split; try lia;
        intro Hc; try discriminate; lia.
    + (* EvDecode *)
      destruct l as [|[] l']; try discriminate.
      apply andb_true_iff in Ha. destruct Ha as [Ha _].
      assert (Hh : headIs isRecvBytes (EvRecv sock numBytes :: l') = true)
        by exact Ha.
      specialize (H6 Hh). repeat split; try lia; intro Hc; try discriminate; lia.
    + (* EvTimeNow *)
      specialize (H5 Ha). repeat split; try lia; intro Hc; try discriminate; lia.
    + (* EvPublish *)
      apply andb_true_iff in Ha. destruct Ha as [Ha _].
      destruct l as [|[] l']; try discriminate.
      specialize (H4 eq_refl).
      repeat split; try lia; intro Hc; try discriminate; lia.
Qed.

End Reading.

(** ** One handshake is the last *)

Section Settled.

Context {RigidBody : Type} (env : Environment RigidBody).

Local Notation "'Bridge'" := (Bridge RigidBody).

(** The codec does not take server information away. *)
Hypothesis codec_keeps : forall k dm,
  0 < numBytesReceived (socket_recv env k) ->
  hasServerInfo dm = true ->
  hasServerInfo (MessageDispatcher_dispatch env (messageOf (socket_recv env k)) dm)
  = true.

Variable sent : nat.

Lemma settled_ext (s s' : Bridge) :
  dataModel s' = dataModel s -> log s' = log s ->
  settled sent s -> settled sent s'.
Proof. unfold settled. intros Ed El. rewrite Ed, El. tauto. Qed.

Lemma settled_log e (s : Bridge) :
  isSend e = false -> settled sent s -> settled sent (logged e s).
Proof.
  intros He [Hk Hc]. split; [exact Hk|].
  cbn [log logged]. rewrite count_cons, He. exact Hc.
Qed.

Lemma settled_enter (s : Bridge) :
  settled sent s -> settled sent (enterHandshake s).
Proof.
  intros [Hk Hc]. unfold settled, enterHandshake. cbn [dataModel log].
  split.
  - destruct (version (serverDescription s)); [exact Hk | reflexivity].
  - rewrite !count_app, count_cons. cbn [isSend].
    destruct (version (serverDescription s)), (multicastClientSocketPtr s);
      cbn; exact Hc.
Qed.

Lemma settled_leave (s : Bridge) :
  settled sent s -> settled sent (leaveHandshake s).
Proof.
  intros [Hk Hc]. unfold settled, leaveHandshake. cbn [dataModel log].
  split; [exact Hk|].
  rewrite count_cons, count_app, count_cons. cbn [isSend].
  destruct (publishDispatcherPtr s); cbn; exact Hc.
Qed.

Lemma settled_poll (s s' : Bridge) :
  settled sent s -> pollAndPublish env s = Done tt s' -> settled sent s'.
Proof.
  intros [Hk Hc] E. unfold pollAndPublish in E.
  destruct (initialized s).
  - unfold bind at 1 in E.
    destruct (multicastClientSocketPtr s) as [sock|] eqn:Es.
    + rewrite (updateDataModelFromServer_eq env s sock Es) in E.
      destruct (0 <? numBytesReceived _) eqn:Hn.
      * unfold bind, timeNow, publish in E.
        cbn [publishDispatcherPtr set_dataModel logged] in E.
        destruct (publishDispatcherPtr s); [|discriminate].
        unfold emit, modify in E. inversion E; subst s'.
        split.
        -- cbn. apply codec_keeps; [apply Z.ltb_lt, Hn | exact Hk].
        -- cbn [log logged set_dataModel]. rewrite !count_cons. cbn. exact Hc.
      * unfold bind, ret, emit, modify in E. inversion E; subst s'.
        split; [exact Hk|].
        cbn [log logged]. rewrite !count_cons. cbn. exact Hc.
    + unfold updateDataModelFromServer, socketRecv, bind in E.
      rewrite Es in E. discriminate.
  - unfold emit, modify in E. inversion E; subst s'.
    apply settled_log; [reflexivity | split; assumption].
Qed.

Ltac settled_blocks :=
  first
    [ intros a [_ Hb]; exact Hb
    | intros a [Ha _]; exact Ha
    | intros a [Ha _] Hb; split; [exact Ha | exact Hb]
    | intros a Ha _; split; [apply settled_enter, Ha | discriminate]
    | intros a Ha _; split;
      [ apply (settled_log (EvInfo "Initialization incomplete") a eq_refl Ha)
      | intro Hc; discriminate ]
    | intros a [Ha Hb]; split;
      [apply settled_log; [reflexivity | exact Ha] | exact Hb]
    | intros a b [[Ha _] _] _ Hc _; rewrite Ha in Hc; discriminate
    | intros c0 a Ha; apply (settled_log (EvCallback c0) a eq_refl Ha)
    | intros a [Ha Hb] _; split;
      [ apply settled_leave, Ha | intros _; split; [exact Hb | discriminate] ]
    | intros a b [Ha Hb] _ E; split;
      [ apply (settled_poll a b Ha E)
      | destruct (pollAndPublish_frame env a b E) as [_ [Es [Ed Ei]]];
        apply (nullSafe_ext a b Es Ed Ei Hb) ] ].

Lemma node_settled fuel (s : Bridge) :
  settled sent s ->
  outcomeIs (fun s' => settled sent s' /\ nullSafe s') (settled sent)
            (node_main env fuel s) /\
  (forall cfg,
     outcomeIs (fun s' => settled sent s' /\ nullSafe s') (settled sent)
               (reconfigureCallback env fuel cfg s)) /\
  (nullSafe s ->
   outcomeIs (fun s' => settled sent s' /\ nullSafe s') (settled sent)
             (run env fuel s)).
Proof.
  intro Hs. split; [|split].
  - apply (node_main_sound env (settled sent)
             (fun a => settled sent a /\ holdsSocket a)
             (fun a => settled sent a /\ nullSafe a)); try exact Hs;
      settled_blocks.
  - intro cfg.
    assert (H : outcomeIs
                  (fun s' => (settled sent s' /\ nullSafe s') /\ keepsSocket s s')
                  (fun s' => settled sent s' /\ keepsSocket s s')
                  (reconfigureCallback env fuel cfg s)).
    { apply (reconfigureCallback_sound env (settled sent)
               (fun a => settled sent a /\ holdsSocket a)
               (fun a => settled sent a /\ nullSafe a)); try exact Hs;
        settled_blocks. }
    destruct (reconfigureCallback env fuel cfg s); cbn [outcomeIs] in *; tauto.
  - intro Hsafe.
    apply (run_sound env (settled sent)
             (fun a => settled sent a /\ holdsSocket a)
             (fun a => settled sent a /\ nullSafe a));
      try (split; [exact Hs | exact Hsafe]); settled_blocks.
Qed.

End Settled.

(** ** Shutdown ends the node *)

Section Returns.

Context {RigidBody : Type} (env : Environment RigidBody).

Local Notation "'Bridge'" := (Bridge RigidBody).

Ltac asksOn_steps :=
  unfold asksOn;
  first
    [ intros a; apply Nat.le_refl
    | intros a b c Hab Hbc; exact (Nat.le_trans _ _ _ Hab Hbc)
    | intros a b _ Hab; exact Hab
    | intros e a; intros; cbn [log logged]; rewrite count_cons;
      destruct (isOk e); auto
    | intros c0 a; cbn [log set_serverDescription logged];
      rewrite count_cons; cbn [isOk]; apply Nat.le_refl
    | intros; apply Nat.le_refl ].

Lemma initialize_asksOn fuel : keeps asksOn (initialize env fuel).
Proof. apply initialize_keeps; asksOn_steps. Qed.

Lemma reconfigureCallbackWith_asksOn fuel cfg :
  keeps asksOn (reconfigureCallbackWith (initialize env fuel) cfg).
Proof.
  apply reconfigureCallbackWith_keeps;
    first [apply initialize_asksOn | asksOn_steps].
Qed.

Lemma requestAndPoll_asksOn (s : Bridge) :
  headIs isOkTrue (log s) = true ->
  asksOn s (stateOf (requestAndPoll env s)).
Proof. apply requestAndPoll_keeps; asksOn_steps. Qed.

Lemma pollAndPublish_asksOn (s : Bridge) :
  headIs isOkTrue (log s) = true ->
  asksOn s (stateOf (pollAndPublish env s)).
Proof. apply pollAndPublish_keeps; asksOn_steps. Qed.

Lemma requestAndPoll_fuelSufficed (s : Bridge) :
  fuelSufficed (requestAndPoll env s).
Proof.
  destruct (multicastClientSocketPtr s) as [sock|] eqn:Es.
  - rewrite (requestAndPoll_eq env s sock Es). destruct (0 <? _); exact I.
  - unfold requestAndPoll, bind, socketSend. rewrite Es. exact I.
Qed.

Lemma pollAndPublish_fuelSufficed (s : Bridge) :
  fuelSufficed (pollAndPublish env s).
Proof.
  unfold pollAndPublish. destruct (initialized s); [|exact I].
  unfold bind at 1.
  destruct (multicastClientSocketPtr s) as [sock|] eqn:Es.
  - rewrite (updateDataModelFromServer_eq env s sock Es).
    destruct (0 <? _).
    + unfold bind, timeNow, publish.
      cbn [publishDispatcherPtr set_dataModel logged].
      destruct (publishDispatcherPtr s); exact I.
    + exact I.
  - unfold updateDataModelFromServer, socketRecv, bind. rewrite Es. exact I.
Qed.

(** From its [down]-th call on [ros::ok()] answers false. *)
Variable down : nat.
Hypothesis shut_down : forall k, (down <= k)%nat -> ros_ok env k = false.

Lemma forEach_returns (cb : MocapOptitrackConfig -> M RigidBody unit) from
      (l : list MocapOptitrackConfig) :
  (forall cfg s, (from <= count isOk (log s))%nat ->
     fuelSufficed (cb cfg s) /\ asksOn s (stateOf (cb cfg s))) ->
  forall s : Bridge, (from <= count isOk (log s))%nat ->
    fuelSufficed (forEach l cb s) /\ asksOn s (stateOf (forEach l cb s)).
Proof.
  intro Hcb. induction l as [|cfg l IH]; intros s Hs; cbn [forEach].
  - split; [exact I | apply Nat.le_refl].
  - unfold bind. destruct (Hcb cfg s Hs) as [H1 H2].
    destruct (cb cfg s) as [[] s1 | s1 | s1]; cbn [stateOf] in *;
      try (split; [exact H1 | exact H2]).
    unfold asksOn in H2.
    destruct (IH s1 (Nat.le_trans _ _ _ Hs H2)) as [H3 H4].
    split; [exact H3|]. unfold asksOn in *. lia.
Qed.

Lemma spinOnce_returns (cb : MocapOptitrackConfig -> M RigidBody unit) from :
  (forall cfg s, (from <= count isOk (log s))%nat ->
     fuelSufficed (cb cfg s) /\ asksOn s (stateOf (cb cfg s))) ->
  forall s : Bridge, (from <= count isOk (log s))%nat ->
    fuelSufficed (spinOnce env cb s) /\ asksOn s (stateOf (spinOnce env cb s)).
Proof.
  intros Hcb s Hs. unfold spinOnce, bind, emit, modify.
  exact (forEach_returns cb from _ Hcb (logged EvSpinOnce s) Hs).
Qed.

Lemma handshakeLoop_returns (cb : MocapOptitrackConfig -> M RigidBody unit) fuel :
  forall s : Bridge,
    (oksLeft down s + 1 <= fuel)%nat ->
    ((count isOk (log s) < down)%nat ->
     forall cfg s', (S (count isOk (log s)) <= count isOk (log s'))%nat ->
       fuelSufficed (cb cfg s') /\ asksOn s' (stateOf (cb cfg s'))) ->
    fuelSufficed (handshakeLoop env (spinOnce env cb) fuel s).
Proof.
  unfold oksLeft.
  induction fuel as [|fuel IH]; intros s Hfuel Hcb; [lia|].
  cbn [handshakeLoop]. unfold bind at 1. unfold rosOk at 1. unfold bind at 1.
  set (s1 := logged _ s). change (dataModel s1) with (dataModel s).
  destruct (ros_ok env (count isOk (log s))) eqn:Hok;
    [destruct (hasServerInfo (dataModel s))|]; cbn [andb negb]; try exact I.
  assert (Hk : (count isOk (log s) < down)%nat).
  { destruct (Nat.lt_ge_cases (count isOk (log s)) down) as [H | H];
      [exact H | rewrite (shut_down _ H) in Hok; discriminate]. }
  assert (E1 : count isOk (log s1) = S (count isOk (log s))).
  { subst s1. cbn [log logged]. rewrite count_cons. reflexivity. }
  unfold bind at 1.
  pose proof (requestAndPoll_fuelSufficed s1) as F2.
  pose proof (requestAndPoll_asksOn s1 eq_refl) as A2.
  destruct (requestAndPoll env s1) as [[] s2 | s2 | s2];
    cbn [fuelSufficed stateOf] in *; try exact F2.
  unfold asksOn in A2. unfold bind at 1.
  destruct (spinOnce_returns cb (S (count isOk (log s))) (Hcb Hk) s2) as [F3 A3];
    [lia|].
  destruct (spinOnce env cb s2) as [[] s3 | s3 | s3];
    cbn [fuelSufficed stateOf] in *; try exact F3.
  unfold asksOn in A3. apply IH; [lia|].
  intros _ cfg s' Hs'. apply (Hcb Hk). lia.
Qed.

Lemma enterHandshake_asks (s : Bridge) :
  count isOk (log (enterHandshake s)) = count isOk (log s).
Proof.
  unfold enterHandshake. cbn [log]. rewrite !count_app, count_cons.
  destruct (version (serverDescription s)), (multicastClientSocketPtr s);
    reflexivity.
Qed.

Lemma initialize_returns fuel :
  forall s : Bridge,
    (oksLeft down s + 2 <= fuel)%nat ->
    fuelSufficed (initialize env fuel s).
Proof.
  unfold oksLeft.
  induction fuel as [|fuel IH]; intros s Hfuel; [lia|].
  destruct (enableOptitrack (serverDescription s)) eqn:Hen.
  - rewrite (initialize_enters env fuel s Hen). unfold bind at 1.
    assert (F1 : fuelSufficed
                   (handshakeLoop env
                      (spinOnce env (reconfigureCallbackWith (initialize env fuel)))
                      fuel (enterHandshake s))).
    { apply handshakeLoop_returns.
      - unfold oksLeft. rewrite enterHandshake_asks. lia.
      - rewrite enterHandshake_asks. intros Hk cfg s' Hs'. split.
        + apply (IH (callbackEntry cfg s')).
          cbn [callbackEntry log set_serverDescription logged].
          rewrite count_cons. cbn [isOk]. lia.
        + apply reconfigureCallbackWith_asksOn. }
    destruct (handshakeLoop env _ fuel (enterHandshake s)) as [[] s1 | s1 | s1];
      cbn [fuelSufficed] in *; exact F1.
  - rewrite (initialize_disabled env fuel s Hen). exact I.
Qed.

Lemma run_returns fuel :
  forall s : Bridge,
    (oksLeft down s + 2 <= fuel)%nat ->
    fuelSufficed (run env fuel s).
Proof.
  unfold oksLeft.
  induction fuel as [|fuel IH]; intros s Hfuel; [lia|].
  cbn [run]. unfold bind at 1. unfold rosOk at 1.
  set (s1 := logged _ s).
  destruct (ros_ok env (count isOk (log s))) eqn:Hok; [|exact I].
  assert (Hk : (count isOk (log s) < down)%nat).
  { destruct (Nat.lt_ge_cases (count isOk (log s)) down) as [H | H];
      [exact H | rewrite (shut_down _ H) in Hok; discriminate]. }
  assert (E1 : count isOk (log s1) = S (count isOk (log s))).
  { subst s1. cbn [log logged]. rewrite count_cons. reflexivity. }
  unfold bind at 1.
  pose proof (pollAndPublish_fuelSufficed s1) as F2.
  pose proof (pollAndPublish_asksOn s1 eq_refl) as A2.
  destruct (pollAndPublish env s1) as [[] s2 | s2 | s2];
    cbn [fuelSufficed stateOf] in *; try exact F2.
  unfold asksOn in A2. unfold bind at 1.
  destruct (spinOnce_returns (reconfigureCallback env fuel)
              (S (count isOk (log s)))) with (s := s2) as [F3 A3].
  - intros cfg s' Hs'. split.
    + apply (initialize_returns fuel (callbackEntry cfg s')).
      unfold oksLeft. cbn [callbackEntry log set_serverDescription logged].
      rewrite count_cons. cbn [isOk]. lia.
    + apply reconfigureCallbackWith_asksOn.
  - lia.
  - destruct (spinOnce env _ s2) as [[] s3 | s3 | s3];
      cbn [fuelSufficed stateOf] in *; try exact F3.
    unfold asksOn in A3. apply IH. lia.
Qed.

Lemma node_main_returns fuel (s : Bridge) :
  (oksLeft down s + 2 <= fuel)%nat ->
  fuelSufficed (node_main env fuel s).
Proof.
  intro Hfuel. unfold node_main, bind.
  pose proof (initialize_returns fuel s Hfuel) as F1.
  pose proof (initialize_asksOn fuel s) as A1.
  destruct (initialize env fuel s) as [[] s1 | s1 | s1];
    cbn [fuelSufficed stateOf] in *; try exact F1.
  apply run_returns. unfold oksLeft, asksOn in *. lia.
Qed.

End Returns.

(** ** Further properties of the node *)

Section Further.

Context {RigidBody : Type} (env : Environment RigidBody).

Local Notation "'Bridge'" := (Bridge RigidBody).

Lemma constructed_orderly descr :
  orderly (constructed (RigidBody := RigidBody) descr).
Proof.
  repeat split; intros x Hx; discriminate.
Qed.

Lemma last_or_nil {A} (l : list A) :
  l = [] \/ exists l' a, l = l' ++ [a].
Proof.
  destruct l as [|x l]; [left; reflexivity | right].
  destruct (exists_last (l := x :: l)) as [l' [a E]]; [discriminate|].
  exists l', a. exact E.
Qed.

(** X1.  [main] never dereferences an empty [unique_ptr], from whatever
    state it starts: neither do [initialize] and [reconfigureCallback], nor
    [run] on a node that holds a socket and a dispatcher whenever it is
    initialized; and when [main] returns the node is such a node. *)
Theorem node_never_dereferences_null fuel (s : Bridge) :
  (forall s', node_main env fuel s <> NullPointer s') /\
  (forall s', initialize env fuel s <> NullPointer s') /\
  (forall cfg s', reconfigureCallback env fuel cfg s <> NullPointer s') /\
  (nullSafe s -> forall s', run env fuel s <> NullPointer s') /\
  (forall s', node_main env fuel s = Done tt s' -> nullSafe s').
Proof.
  destruct (node_pointers_sound env fuel s) as [Hi [Hr Hm]].
  split; [|split; [|split; [|split]]].
  - intros s' E. rewrite E in Hm. exact Hm.
  - intros s' E. rewrite E in Hi. exact Hi.
  - intros cfg s' E. rewrite reconfigureCallback_eq in E.
    destruct (node_pointers_sound env fuel
                (set_serverDescription (applyConfig cfg (serverDescription s))
                                       (logged (EvCallback cfg) s)))
      as [Hc _].
    rewrite E in Hc. exact Hc.
  - intros Hs s' E. specialize (Hr Hs). rewrite E in Hr. exact Hr.
  - intros s' E. rewrite E in Hm. exact Hm.
Qed.

(** X2.  Started with the sockets it holds accounted for, the node never
    leaks a socket: wherever [main] finishes or stops, the sockets that are
    open are exactly the one the node holds, so never more than one. *)
Theorem sockets_never_leak fuel (s : Bridge) :
  orderly s ->
  let s' := stateOf (node_main env fuel s) in
  openSockets (log s') = heldSockets (multicastClientSocketPtr s') /\
  (List.length (openSockets (log s')) <= 1)%nat.
Proof.
  intros Hs s'. destruct (node_main_orderly env fuel s Hs) as [_ [_ [Ho _]]].
  fold s' in Ho. split; [exact Ho|]. rewrite Ho.
  destruct (multicastClientSocketPtr s'); cbn; lia.
Qed.

(** X3.  The same holds of the publish dispatchers: wherever [main]
    finishes or stops the dispatcher alive is the one the node holds, and
    every publish went through a dispatcher that was alive when it was
    made. *)
Theorem publish_through_live_dispatcher fuel (s : Bridge) :
  orderly s ->
  let s' := stateOf (node_main env fuel s) in
  liveDispatchers (log s') = heldDispatchers (publishDispatcherPtr s') /\
  forall after d t bodies before,
    log s' = after ++ EvPublish d t bodies :: before ->
    In d (liveDispatchers before).
Proof.
  intros Hs s'. destruct (node_main_orderly env fuel s Hs) as [Hin [_ [_ [Hl _]]]].
  fold s' in Hin, Hl. split; [exact Hl|].
  intros after d t bodies before E. rewrite E in Hin.
  destruct (inOrder_at after _ before Hin) as [Ha _].
  cbn [comesAfter] in Ha. apply andb_true_iff in Ha. destruct Ha as [_ Ha].
  apply existsb_eqb_In, Ha.
Qed.

(** X4.  Every publish carries the time read right before it, which was
    read right after the codec was handed the bytes of the receive right
    before that, a receive that yielded bytes; and right after every publish
    the data model is cleared. *)
Theorem publish_follows_its_receive fuel (s : Bridge) :
  orderly s ->
  forall after d t bodies before,
    log (stateOf (node_main env fuel s))
    = after ++ EvPublish d t bodies :: before ->
    (exists msg sock n rest,
       before = EvTimeNow t :: EvDecode msg :: EvRecv sock n :: rest /\
       0 < n) /\
    (exists after', after = after' ++ [EvClear]).
Proof.
  intros Hs after d t bodies before E.
  destruct (node_main_orderly env fuel s Hs) as [Hin [Hrest _]].
  rewrite E in Hin, Hrest. split.
  - destruct (inOrder_at after _ before Hin) as [Ha _].
    cbn [comesAfter] in Ha. apply andb_true_iff in Ha. destruct Ha as [Ha _].
    destruct before as [|[] r1]; try discriminate.
    apply Z.eqb_eq in Ha. subst t0.
    pose proof (inOrder_at (after ++ [EvPublish d t bodies]) (EvTimeNow t) r1)
      as H1.
    rewrite <- app_assoc in H1. destruct (H1 Hin) as [Hb _].
    cbn [comesAfter] in Hb. destruct r1 as [|[] r2]; try discriminate.
    pose proof (inOrder_at (after ++ [EvPublish d t bodies; EvTimeNow t])
                           (EvDecode msg) r2) as H2.
    rewrite <- app_assoc in H2. destruct (H2 Hin) as [Hc _].
    cbn [comesAfter] in Hc. destruct r2 as [|[] rest]; try discriminate.
    apply andb_true_iff in Hc. destruct Hc as [Hc _]. apply Z.ltb_lt in Hc.
    eexists _, _, _, _. split; [reflexivity | exact Hc].
  - destruct (last_or_nil after) as [E0 | [after' [e E0]]]; subst after.
    + discriminate.
    + exists after'. rewrite <- app_assoc in Hin.
      destruct (inOrder_at after' e _ Hin) as [_ Hb].
      cbn [comesBefore] in Hb. destruct e; try discriminate. reflexivity.
Qed.

(** X5.  The codec is handed bytes only right after a receive that yielded
    some, and never more of them than the receive yielded. *)
Theorem decode_only_what_was_received fuel (s : Bridge) :
  orderly s ->
  forall after msg before,
    log (stateOf (node_main env fuel s)) = after ++ EvDecode msg :: before ->
    exists sock n rest,
      before = EvRecv sock n :: rest /\
      0 < n /\ Z.of_nat (List.length msg) <= n.
Proof.
  intros Hs after msg before E.
  destruct (node_main_orderly env fuel s Hs) as [Hin _]. rewrite E in Hin.
  destruct (inOrder_at after _ before Hin) as [Ha _].
  cbn [comesAfter] in Ha. destruct before as [|[] rest]; try discriminate.
  apply andb_true_iff in Ha. destruct Ha as [H1 H2].
  apply Z.ltb_lt in H1. apply Z.leb_le in H2.
  eexists _, _, _. repeat split; assumption.
Qed.

(** X6.  Connection requests are sent and datagrams received on a socket
    that is open, and every connection request is followed at once by a
    receive. *)
Theorem request_then_receive fuel (s : Bridge) :
  orderly s ->
  let l := log (stateOf (node_main env fuel s)) in
  (forall after sock msg port before,
     l = after ++ EvSend sock msg port :: before ->
     In sock (openSockets before) /\
     exists after' sock' n, after = after' ++ [EvRecv sock' n]) /\
  (forall after sock n before,
     l = after ++ EvRecv sock n :: before -> In sock (openSockets before)).
Proof.
  intros Hs l. destruct (node_main_orderly env fuel s Hs) as [Hin [Hrest _]].
  fold l in Hin, Hrest. split.
  - intros after sock msg port before E. rewrite E in Hin, Hrest.
    destruct (inOrder_at after _ before Hin) as [Ha _]. split.
    + apply existsb_eqb_In, Ha.
    + destruct (last_or_nil after) as [E0 | [after' [e E0]]]; subst after.
      * discriminate.
      * rewrite <- app_assoc in Hin.
        destruct (inOrder_at after' e _ Hin) as [_ Hb].
        cbn [comesBefore] in Hb. destruct e; try discriminate.
        eexists _, _, _. reflexivity.
  - intros after sock n before E. rewrite E in Hin.
    destruct (inOrder_at after _ before Hin) as [Ha _].
    apply existsb_eqb_In, Ha.
Qed.

(** X7.  A socket is closed only in the course of being replaced: every
    close comes right after the bind of another socket, and closes a socket
    that was open before that bind. *)
Theorem close_only_after_bind fuel (s : Bridge) :
  orderly s ->
  forall after sock before,
    log (stateOf (node_main env fuel s)) = after ++ EvClose sock :: before ->
    exists fresh port addr rest,
      before = EvBind fresh port addr :: rest /\
      In sock (openSockets rest) /\
      In sock (openSockets before) /\ In fresh (openSockets before).
Proof.
  intros Hs after sock before E.
  destruct (node_main_orderly env fuel s Hs) as [Hin _]. rewrite E in Hin.
  destruct (inOrder_at after _ before Hin) as [Ha _].
  cbn [comesAfter] in Ha. apply andb_true_iff in Ha. destruct Ha as [H1 H2].
  destruct before as [|[] rest]; try discriminate.
  cbn [tl] in H2. apply existsb_eqb_In in H2.
  eexists _, _, _, _. split; [reflexivity|]. split; [exact H2|].
  cbn [openSockets]. split; [right; exact H2 | left; reflexivity].
Qed.

(** X8.  The node never publishes more often than it received bytes:
    wherever [main] finishes or stops, the publishes in the log are no more
    than the receives that yielded bytes. *)
Theorem publishes_bounded_by_receives fuel (s : Bridge) :
  orderly s ->
  (publishCount (log (stateOf (node_main env fuel s)))
   <= count isRecvBytes (log (stateOf (node_main env fuel s))))%nat.
Proof.
  intro Hs. destruct (node_main_orderly env fuel s Hs) as [Hin _].
  destruct (inOrder_counts _ Hin) as [H1 [H2 [H3 _]]].
  unfold publishCount. lia.
Qed.

(** X9.  When [initialize] returns, [initialized] is what the enable flag
    was when it was entered, whatever callbacks changed the description
    while it waited for the server; so [reconfigureCallback] returns with
    [initialized] equal to the enable flag it was called with. *)
Theorem initialized_as_entered fuel (s : Bridge) :
  (forall s', initialize env fuel s = Done tt s' ->
     initialized s' = enableOptitrack (serverDescription s)) /\
  (forall cfg s', reconfigureCallback env fuel cfg s = Done tt s' ->
     initialized s' = enable_optitrack cfg).
Proof.
  assert (H : forall a s' : Bridge, initialize env fuel a = Done tt s' ->
                initialized s' = enableOptitrack (serverDescription a)).
  { intros a s' E. destruct fuel as [|n]; [discriminate|].
    destruct (enableOptitrack (serverDescription a)) eqn:Hen.
    - rewrite (initialize_enters env n a Hen) in E.
      apply bind_done in E. destruct E as [[] [s1 [_ E]]].
      rewrite initialize_leaves in E. inversion E. reflexivity.
    - rewrite (initialize_disabled env n a Hen) in E. inversion E. reflexivity. }
  split; [apply H|].
  intros cfg s' E. rewrite reconfigureCallback_eq in E. apply H in E. exact E.
Qed.

(** X10.  Once the server information is known the node never shakes hands
    again: as long as the codec does not take the information away, no
    reconfiguration, however often it rebinds the socket, sends another
    connection request, and the information stays known. *)
Theorem handshake_happens_once fuel (s : Bridge) :
  (forall k dm,
     0 < numBytesReceived (socket_recv env k) ->
     hasServerInfo dm = true ->
     hasServerInfo
       (MessageDispatcher_dispatch env (messageOf (socket_recv env k)) dm)
     = true) ->
  hasServerInfo (dataModel s) = true ->
  (hasServerInfo (dataModel (stateOf (node_main env fuel s))) = true /\
   count isSend (log (stateOf (node_main env fuel s))) = count isSend (log s)) /\
  (forall cfg,
     hasServerInfo (dataModel (stateOf (reconfigureCallback env fuel cfg s)))
     = true /\
     count isSend (log (stateOf (reconfigureCallback env fuel cfg s)))
     = count isSend (log s)) /\
  (nullSafe s ->
   hasServerInfo (dataModel (stateOf (run env fuel s))) = true /\
   count isSend (log (stateOf (run env fuel s))) = count isSend (log s)).
Proof.
  intros Hcodec Hknown.
  assert (Hs : settled (count isSend (log s)) s) by (split; [exact Hknown | reflexivity]).
  destruct (node_settled env Hcodec (count isSend (log s)) fuel s Hs)
    as [Hm [Hc Hr]].
  split; [|split].
  - destruct (node_main env fuel s); cbn [outcomeIs stateOf] in *;
      unfold settled in Hm; tauto.
  - intro cfg. specialize (Hc cfg).
    destruct (reconfigureCallback env fuel cfg s); cbn [outcomeIs stateOf] in *;
      unfold settled in Hc; tauto.
  - intro Hsafe. specialize (Hr Hsafe).
    destruct (run env fuel s); cbn [outcomeIs stateOf] in *;
      unfold settled in Hr; tauto.
Qed.

(** X11.  Shutdown ends the node: when [ros::ok()] answers false from some
    call on, [main] returns, and so does [initialize], as soon as the fuel
    exceeds by two the number of calls that can still answer true; the
    returned node holds what an initialized node needs. *)
Theorem shutdown_ends_main fuel down (s : Bridge) :
  (forall k, (down <= k)%nat -> ros_ok env k = false) ->
  (oksLeft down s + 2 <= fuel)%nat ->
  (exists s', node_main env fuel s = Done tt s' /\ nullSafe s') /\
  (exists s', initialize env fuel s = Done tt s').
Proof.
  intros Hdown Hfuel.
  destruct (node_pointers_sound env fuel s) as [Hi [_ Hm]].
  pose proof (node_main_returns env down Hdown fuel s Hfuel) as Fm.
  pose proof (initialize_returns env down Hdown fuel s Hfuel) as Fi.
  split.
  - destruct (node_main env fuel s) as [[] s' | s' | s'];
      cbn [outcomeIs fuelSufficed] in *; try contradiction.
    exists s'. split; [reflexivity | exact Hm].
  - destruct (initialize env fuel s) as [[] s' | s' | s'];
      cbn [outcomeIs fuelSufficed] in *; try contradiction.
    exists s'. reflexivity.
Qed.

End Further.

Lemma node_never_dereferences_null_witness :
  nullSafe Demo.ready /\
  (forall s', run (Demo.session []) 5 Demo.ready <> NullPointer s') /\
  (forall s', node_main (Demo.session []) 5 Demo.start <> NullPointer s') /\
  (exists s', node_main (Demo.session []) 8 Demo.start = Done tt s' /\
              nullSafe s').
Proof.
  assert (Hready : nullSafe Demo.ready).
  { intros _. split; vm_compute; discriminate. }
  split; [exact Hready|]. split; [|split].
  - exact (proj1 (proj2 (proj2 (proj2
             (node_never_dereferences_null (Demo.session []) 5 Demo.ready))))
             Hready).
  - exact (proj1 (node_never_dereferences_null (Demo.session []) 5 Demo.start)).
  - eexists. split; [vm_compute; reflexivity|].
    apply (proj2 (proj2 (proj2 (proj2
             (node_never_dereferences_null (Demo.session []) 8 Demo.start))))).
    vm_compute. reflexivity.
Defined.

Lemma sockets_never_leak_witness :
  orderly Demo.start /\
  openSockets (log (stateOf (node_main (Demo.session [Demo.moveTo true]) 20
                                       Demo.start)))
  = heldSockets (multicastClientSocketPtr
                   (stateOf (node_main (Demo.session [Demo.moveTo true]) 20
                                       Demo.start))) /\
  (List.length
     (openSockets (log (stateOf (node_main (Demo.session [Demo.moveTo true]) 20
                                           Demo.start)))) <= 1)%nat.
Proof.
  split; [apply constructed_orderly|].
  exact (sockets_never_leak (Demo.session [Demo.moveTo true]) 20 Demo.start
                            (constructed_orderly Demo.description)).
Defined.

Lemma publish_through_live_dispatcher_witness :
  orderly Demo.start /\
  liveDispatchers (log (stateOf (node_main (Demo.session [Demo.moveTo true]) 20
                                           Demo.start)))
  = heldDispatchers (publishDispatcherPtr
                       (stateOf (node_main (Demo.session [Demo.moveTo true]) 20
                                           Demo.start))) /\
  forall after d t bodies before,
    log (stateOf (node_main (Demo.session [Demo.moveTo true]) 20 Demo.start))
    = after ++ EvPublish d t bodies :: before ->
    In d (liveDispatchers before).
Proof.
  split; [apply constructed_orderly|].
  exact (publish_through_live_dispatcher
           (Demo.session [Demo.moveTo true]) 20 Demo.start
           (constructed_orderly Demo.description)).
Defined.

Lemma publish_follows_its_receive_witness :
  orderly Demo.start /\
  forall after d t bodies before,
    log (stateOf (node_main (Demo.session []) 20 Demo.start))
    = after ++ EvPublish d t bodies :: before ->
    (exists msg sock n rest,
       before = EvTimeNow t :: EvDecode msg :: EvRecv sock n :: rest /\
       0 < n) /\
    (exists after', after = after' ++ [EvClear]).
Proof.
  split; [apply constructed_orderly|].
  exact (publish_follows_its_receive (Demo.session []) 20 Demo.start
                                     (constructed_orderly Demo.description)).
Defined.

Lemma decode_only_what_was_received_witness :
  orderly Demo.start /\
  forall after msg before,
    log (stateOf (node_main (Demo.session []) 20 Demo.start))
    = after ++ EvDecode msg :: before ->
    exists sock n rest,
      before = EvRecv sock n :: rest /\
      0 < n /\ Z.of_nat (List.length msg) <= n.
Proof.
  split; [apply constructed_orderly|].
  exact (decode_only_what_was_received (Demo.session []) 20 Demo.start
                                       (constructed_orderly Demo.description)).
Defined.

Lemma request_then_receive_witness :
  orderly Demo.start /\
  (forall after sock msg port before,
     log (stateOf (node_main Demo.interrupted 20 Demo.start))
     = after ++ EvSend sock msg port :: before ->
     In sock (openSockets before) /\
     exists after' sock' n, after = after' ++ [EvRecv sock' n]) /\
  (forall after sock n before,
     log (stateOf (node_main Demo.interrupted 20 Demo.start))
     = after ++ EvRecv sock n :: before -> In sock (openSockets before)).
Proof.
  split; [apply constructed_orderly|].
  exact (request_then_receive Demo.interrupted 20 Demo.start
                              (constructed_orderly Demo.description)).
Defined.

Lemma close_only_after_bind_witness :
  orderly Demo.start /\
  forall after sock before,
    log (stateOf (node_main (Demo.session [Demo.moveTo true]) 20 Demo.start))
    = after ++ EvClose sock :: before ->
    exists fresh port addr rest,
      before = EvBind fresh port addr :: rest /\
      In sock (openSockets rest) /\
      In sock (openSockets before) /\ In fresh (openSockets before).
Proof.
  split; [apply constructed_orderly|].
  exact (close_only_after_bind (Demo.session [Demo.moveTo true]) 20 Demo.start
                               (constructed_orderly Demo.description)).
Defined.

Lemma publishes_bounded_by_receives_witness :
  orderly Demo.start /\
  (publishCount (log (stateOf (node_main (Demo.session []) 20 Demo.start)))
   <= count isRecvBytes
        (log (stateOf (node_main (Demo.session []) 20 Demo.start))))%nat.
Proof.
  split; [apply constructed_orderly|].
  exact (publishes_bounded_by_receives (Demo.session []) 20 Demo.start
                                       (constructed_orderly Demo.description)).
Defined.

(** The description is disabled while the node waits for the server, and
    the node comes out initialized all the same. *)
Lemma initialized_as_entered_witness :
  exists s',
    initialize Demo.interrupted 5 Demo.start = Done tt s' /\
    enableOptitrack (serverDescription s') = false /\
    initialized s' = enableOptitrack (serverDescription Demo.start).
Proof.
  eexists. split; [vm_compute; reflexivity|]. split; [reflexivity|].
  apply (proj1 (initialized_as_entered Demo.interrupted 5 Demo.start)).
  vm_compute. reflexivity.
Defined.

Lemma handshake_happens_once_witness :
  (forall k dm,
     0 < numBytesReceived (socket_recv (Demo.session [Demo.moveTo true]) k) ->
     hasServerInfo dm = true ->
     hasServerInfo
       (MessageDispatcher_dispatch (Demo.session [Demo.moveTo true])
          (messageOf (socket_recv (Demo.session [Demo.moveTo true]) k)) dm)
     = true) /\
  hasServerInfo (dataModel Demo.ready) = true /\
  nullSafe Demo.ready /\
  count isSend (log (stateOf (node_main (Demo.session [Demo.moveTo true]) 20
                                        Demo.ready)))
  = count isSend (log Demo.ready) /\
  count isSend (log (stateOf (run (Demo.session [Demo.moveTo true]) 20
                                  Demo.ready)))
  = count isSend (log Demo.ready).
Proof.
  assert (Hcodec : forall k dm,
            0 < numBytesReceived
                  (socket_recv (Demo.session [Demo.moveTo true]) k) ->
            hasServerInfo dm = true ->
            hasServerInfo
              (MessageDispatcher_dispatch (Demo.session [Demo.moveTo true])
                 (messageOf (socket_recv (Demo.session [Demo.moveTo true]) k))
                 dm) = true).
  { intros k dm _ H.
    change (hasServerInfo
              (Demo.decodeInto
                 (messageOf (socket_recv (Demo.session [Demo.moveTo true]) k))
                 dm) = true).
    unfold Demo.decodeInto. destruct (Demo.deserialize _);
      [reflexivity | rewrite H; exact H | exact H]. }
  assert (Hready : nullSafe Demo.ready).
  { intros _. split; vm_compute; discriminate. }
  destruct (handshake_happens_once (Demo.session [Demo.moveTo true]) 20
              Demo.ready Hcodec eq_refl) as [[_ Hm] [_ Hr]].
  split; [exact Hcodec|]. split; [reflexivity|]. split; [exact Hready|].
  split; [exact Hm | exact (proj2 (Hr Hready))].
Defined.

Lemma shutdown_ends_main_witness :
  (forall k, (6 <= k)%nat -> ros_ok (Demo.session []) k = false) /\
  (oksLeft 6 Demo.start + 2 <= 8)%nat /\
  (exists s', node_main (Demo.session []) 8 Demo.start = Done tt s' /\
              nullSafe s') /\
  (exists s', initialize (Demo.session []) 8 Demo.start = Done tt s').
Proof.
  assert (Hdown : forall k, (6 <= k)%nat -> ros_ok (Demo.session []) k = false).
  { intros k Hk. apply Nat.ltb_ge. exact Hk. }
  assert (Hfuel : (oksLeft 6 Demo.start + 2 <= 8)%nat) by (vm_compute; lia).
  split; [exact Hdown|]. split; [exact Hfuel|].
  exact (shutdown_ends_main (Demo.session []) 8 6 Demo.start Hdown Hfuel).
Defined.
